(** * seoul_sales_dashboard.py: borough classifier, loader and aggregator

    A shallow embedding of [seoul_sales_dashboard.py].  Python [str] values
    are sequences of Unicode code points; pandas columns are sequences of
    cells, a cell being a [str], a number or NaN; the Streamlit calls of the
    script are recorded as a trace of user-interface events. *)

From Stdlib Require Import String Ascii.
From Stdlib Require Import List NArith ZArith QArith Bool Lia.
From Stdlib Require Import Permutation Sorted.
Import ListNotations.

Set Implicit Arguments.


(* ================================================================== *)
(** * Definitions *)
(* ================================================================== *)

(** ** Python strings *)

(** A Python [str] is a sequence of code points. *)
Definition str := list N.

(** The script is a UTF-8 file; its string literals are written here as
    string literals of this (UTF-8) file and decoded to code points. *)
Fixpoint utf8_decode (bs : list N) : str :=
  match bs with
  | [] => []
  | b1 :: t1 =>
    if (b1 <? 128)%N then b1 :: utf8_decode t1
    else
      match t1 with
      | [] => [b1]
      | b2 :: t2 =>
        if (b1 <? 224)%N then ((b1 - 192) * 64 + (b2 - 128))%N :: utf8_decode t2
        else
          match t2 with
          | [] => [b1; b2]
          | b3 :: t3 =>
            if (b1 <? 240)%N
            then ((b1 - 224) * 4096 + (b2 - 128) * 64 + (b3 - 128))%N
                   :: utf8_decode t3
            else
              match t3 with
              | [] => [b1; b2; b3]
              | b4 :: t4 =>
                ((b1 - 240) * 262144 + (b2 - 128) * 4096
                 + (b3 - 128) * 64 + (b4 - 128))%N :: utf8_decode t4
              end
          end
      end
  end.

Definition lit (s : string) : str :=
  utf8_decode (map N_of_ascii (list_ascii_of_string s)).

Arguments lit s%_string.

(** [p == s] on [str]. *)
Fixpoint str_eqb (p s : str) : bool :=
  match p, s with
  | [], [] => true
  | a :: p', b :: s' => (a =? b)%N && str_eqb p' s'
  | _, _ => false
  end.

(** [s.startswith(p)]. *)
Fixpoint startswith (p s : str) : bool :=
  match p, s with
  | [], _ => true
  | _ :: _, [] => false
  | a :: p', b :: s' => (a =? b)%N && startswith p' s'
  end.

(** [p in s] for two [str]: [p] occurs in [s] at some offset. *)
Fixpoint contains (p s : str) : bool :=
  startswith p s ||
  match s with
  | [] => false
  | _ :: s' => contains p s'
  end.

(** Lexicographic order on code points: [a <= b] on [str]. *)
Fixpoint str_leb (a b : str) : bool :=
  match a, b with
  | [], _ => true
  | _ :: _, [] => false
  | x :: a', y :: b' =>
    if (x <? y)%N then true
    else if (y <? x)%N then false
    else str_leb a' b'
  end.

(** ** The keyword table (lines 15-41) *)

(** A [dict] keeps its keys in insertion order; a key written twice in a
    literal keeps its first position and takes the last value. *)
Fixpoint dict_set (d : list (str * str)) (k v : str) : list (str * str) :=
  match d with
  | [] => [(k, v)]
  | (k', v') :: d' =>
    if str_eqb k' k then (k', v) :: d' else (k', v') :: dict_set d' k v
  end.

Definition dict_literal (kvs : list (string * string)) : list (str * str) :=
  fold_left (fun d kv => dict_set d (lit (fst kv)) (lit (snd kv))) kvs [].

Local Open Scope string_scope.

Definition KEYWORD_TO_DISTRICT_literal : list (string * string) :=
  [ ("종로", "종로구"); ("혜화", "종로구"); ("창신", "종로구"); ("인사동", "종로구");
    ("명동", "중구"); ("남대문", "중구"); ("북창동", "중구"); ("을지로", "중구");
    ("이태원", "용산구"); ("한남", "용산구"); ("보광", "용산구"); ("용산", "용산구");
    ("마장", "성동구"); ("성수", "성동구"); ("행당", "성동구");
    ("건대", "광진구"); ("준양", "광진구"); ("화양", "광진구"); ("자양", "광진구");
    ("장안", "동대문구"); ("청량리", "동대문구"); ("제기", "동대문구");
    ("면목", "중랑구"); ("상봉", "중랑구"); ("중화", "중랑구");
    ("돈암", "성북구"); ("안암", "성북구"); ("종암", "성북구");
    ("수유", "강북구"); ("미아", "강북구"); ("번동", "강북구");
    ("쌍문", "도봉구"); ("창동", "도봉구"); ("방학", "도봉구");
    ("상계", "노원구"); ("중계", "노원구"); ("하계", "노원구");
    ("연서", "은평구"); ("응암", "은평구"); ("불광", "은평구");
    ("이대", "서대문구"); ("신촌", "서대문구"); ("연희", "서대문구");
    ("홍대", "마포구"); ("합정", "마포구"); ("망원", "마포구"); ("공덕", "마포구");
    ("목동", "양천구"); ("신정", "양천구"); ("신월", "양천구");
    ("화곡", "강서구"); ("발산", "강서구"); ("마곡", "강서구");
    ("구로", "구로구"); ("개봉", "구로구"); ("오류", "구로구"); ("신도림", "구로구");
    ("가산", "금천구"); ("시흥", "금천구"); ("독산", "금천구");
    ("영등포", "영등포구"); ("당산", "영등포구"); ("문래", "영등포구"); ("여의도", "영등포구");
    ("노량진", "동작구"); ("상도", "동작구"); ("사당", "동작구"); ("흑석", "동작구");
    ("신림", "관악구"); ("봉천", "관악구"); ("남현", "관악구");
    ("강남역", "서초구"); ("교대", "서초구"); ("방배", "서초구"); ("양재", "서초구");
    ("압구정", "강남구"); ("청담", "강남구"); ("삼성동", "강남구"); ("역삼", "강남구");
    ("논현", "강남구"); ("신사", "강남구"); ("가로수길", "강남구");
    ("잠실", "송파구"); ("가락", "송파구"); ("문정", "송파구"); ("석촌", "송파구");
    ("천호", "강동구"); ("명일", "강동구"); ("암사", "강동구"); ("성내", "강동구") ].

Local Close Scope string_scope.

(** [KEYWORD_TO_DISTRICT.items()], in iteration order. *)
Definition KEYWORD_TO_DISTRICT : list (str * str) :=
  Eval vm_compute in dict_literal KEYWORD_TO_DISTRICT_literal.

(** The label of line 55. *)
Definition UNCLASSIFIED : str := Eval vm_compute in lit "기타/미분류".

(** ** Cells, exceptions and frames *)

(** A cell of a column read by [pd.read_csv]: a [str], a number, or a
    missing value (NaN).  Numbers are exact rationals; the rounding of
    [float64], its infinities (a cell reading [inf]) and the wrap-around of
    [int64] are not modelled.  Sums and means in the statements below are
    the exact ones, and no statement over all files or all views says that
    the summary of a non-empty view runs to its end. *)
Inductive cell : Type :=
| CStr (s : str)
| CNum (q : Q)
| CNaN.

Definition Series := list cell.

(** A frame keeps its columns in order, each with its name. *)
Definition DataFrame := list (str * Series).

Inductive exn : Type :=
| KeyError (key : str)
| IndexError
| ValueError
| TypeError.

Inductive result (A : Type) : Type :=
| Ok (a : A)
| Raise (e : exn).

Arguments Ok {A} a.
Arguments Raise {A} e.

Definition rbind {A B} (m : result A) (k : A -> result B) : result B :=
  match m with
  | Ok a => k a
  | Raise e => Raise e
  end.

Declare Scope result_scope.
Delimit Scope result_scope with result.
Notation "x <- m ;; k" := (rbind m (fun x => k))
  (at level 61, m at next level, right associativity) : result_scope.

(** [x == y] on cells, as [Series.__eq__] compares them: NaN equals
    nothing, a [str] never equals a number. *)
Definition cell_eqb (x y : cell) : bool :=
  match x, y with
  | CStr a, CStr b => str_eqb a b
  | CNum a, CNum b => Qeq_bool a b
  | _, _ => false
  end.

Definition isna (x : cell) : bool :=
  match x with
  | CNaN => true
  | _ => false
  end.

(** Identity of values for [unique] and [groupby], which keep one NaN. *)
Definition cell_same (x y : cell) : bool :=
  cell_eqb x y || (isna x && isna y).

(** The order [sorted] and [groupby] put values in: numbers by value, [str]
    by code points.  Python raises when a [str] meets a number; a column the
    script sorts holds values of one kind, and here numbers come first and
    NaN last. *)
Definition cell_leb (x y : cell) : bool :=
  match x, y with
  | CNum a, CNum b => Qle_bool a b
  | CNum _, _ => true
  | CStr _, CNum _ => false
  | CStr a, CStr b => str_leb a b
  | CStr _, CNaN => true
  | CNaN, CNaN => true
  | CNaN, _ => false
  end.

(** [df.columns]. *)
Definition columns (df : DataFrame) : list str := map fst df.

(** [len(df)]. *)
Definition nrows (df : DataFrame) : nat :=
  match df with
  | [] => 0
  | (_, vs) :: _ => length vs
  end.

(** [df.empty]: no column or no row. *)
Definition df_empty (df : DataFrame) : bool :=
  match df with
  | [] => true
  | _ => (nrows df =? 0)%nat
  end.

(** [df[c]]. *)
Fixpoint getitem (df : DataFrame) (c : str) : result Series :=
  match df with
  | [] => Raise (KeyError c)
  | (c', vs) :: df' => if str_eqb c' c then Ok vs else getitem df' c
  end.

(** [df[c] = vs]: replaces the column, or appends it as the last one. *)
Fixpoint setitem (df : DataFrame) (c : str) (vs : Series) : DataFrame :=
  match df with
  | [] => [(c, vs)]
  | (c', vs') :: df' =>
    if str_eqb c' c then (c', vs) :: df' else (c', vs') :: setitem df' c vs
  end.

(** [xs[mask]]: the entries at which the mask is true. *)
Fixpoint select {A} (mask : list bool) (xs : list A) : list A :=
  match mask, xs with
  | b :: mask', x :: xs' => if b then x :: select mask' xs' else select mask' xs'
  | _, _ => []
  end.

(** [df[mask]]: the same columns, the selected rows. *)
Definition df_select (mask : list bool) (df : DataFrame) : DataFrame :=
  map (fun cv => (fst cv, select mask (snd cv))) df.

(** A frame as [read_csv] builds it: columns of one length. *)
Definition rectangular (df : DataFrame) : bool :=
  forallb (fun cv => (length (snd cv) =? nrows df)%nat) df.

(** ** The classifier (lines 52-55) *)

Section Classifier.

(** [str(x)] of a number cell (Python's and numpy's number printing). *)
Variable repr_num : Q -> str.

(** [str(name)]. *)
Definition py_str (name : cell) : str :=
  match name with
  | CStr s => s
  | CNum q => repr_num q
  | CNaN => lit "nan"
  end.

(** The [for kw, dist in ...: if kw in s: return dist] loop, then line 55. *)
Fixpoint scan_keywords (items : list (str * str)) (s : str) : str :=
  match items with
  | [] => UNCLASSIFIED
  | (kw, dist) :: rest =>
    if contains kw s then dist else scan_keywords rest s
  end.

Definition match_district (name : cell) : str :=
  scan_keywords KEYWORD_TO_DISTRICT (py_str name).

End Classifier.

(** ** Numeric coercion (lines 60-62) *)

Definition COL_AREA : str := Eval vm_compute in lit "상권_코드_명".
Definition COL_DISTRICT : str := Eval vm_compute in lit "자치구".
Definition PAT_AMOUNT : str := Eval vm_compute in lit "매출_금액".
Definition PAT_COUNT : str := Eval vm_compute in lit "매출_건수".

(** [str.contains('매출_금액|매출_건수')]: the regular expression is an
    alternation of two literal strings. *)
Definition is_numeric_col (c : str) : bool :=
  contains PAT_AMOUNT c || contains PAT_COUNT c.

Section Loader.

Variable repr_num : Q -> str.

(** The number a [str] cell parses to under [pd.to_numeric], if any. *)
Variable parse_num : str -> option Q.

(** [pd.to_numeric(..., errors='coerce')] on one cell. *)
Definition to_numeric (x : cell) : cell :=
  match x with
  | CStr s =>
    match parse_num s with
    | Some q => CNum q
    | None => CNaN
    end
  | CNum q => CNum q
  | CNaN => CNaN
  end.

(** [.fillna(0)] on one cell. *)
Definition fillna0 (x : cell) : cell :=
  match x with
  | CNaN => CNum 0
  | _ => x
  end.

Definition coerce (vs : Series) : Series := map fillna0 (map to_numeric vs).

(** The loop of lines 61-62. *)
Fixpoint coerce_columns (cols : list str) (df : DataFrame)
  : result DataFrame :=
  match cols with
  | [] => Ok df
  | col :: rest =>
    (vs <- getitem df col ;;
     coerce_columns rest (setitem df col (coerce vs)))%result
  end.

(** Lines 49-64, on the frame [read_csv] returned. *)
Definition preprocess (df : DataFrame) : result DataFrame :=
  (names <- getitem df COL_AREA ;;
   let df := setitem df COL_DISTRICT
               (map (fun name => CStr (match_district repr_num name)) names) in
   let numeric_cols := filter is_numeric_col (columns df) in
   coerce_columns numeric_cols df)%result.

End Loader.

(** ** Whole numbers as text *)

(** One printer and one parser to run the model with: the decimal digits of
    a whole number, as [str] prints an [int64] cell and as [pd.to_numeric]
    reads it.  The theorems hold for every printer and parser. *)
Fixpoint digits_of_uint (d : Decimal.uint) : str :=
  match d with
  | Decimal.Nil => []
  | Decimal.D0 d' => 48%N :: digits_of_uint d'
  | Decimal.D1 d' => 49%N :: digits_of_uint d'
  | Decimal.D2 d' => 50%N :: digits_of_uint d'
  | Decimal.D3 d' => 51%N :: digits_of_uint d'
  | Decimal.D4 d' => 52%N :: digits_of_uint d'
  | Decimal.D5 d' => 53%N :: digits_of_uint d'
  | Decimal.D6 d' => 54%N :: digits_of_uint d'
  | Decimal.D7 d' => 55%N :: digits_of_uint d'
  | Decimal.D8 d' => 56%N :: digits_of_uint d'
  | Decimal.D9 d' => 57%N :: digits_of_uint d'
  end.

Definition MINUS : N := 45.

Definition repr_whole (q : Q) : str :=
  match Z.quot (Qnum q) (Zpos (Qden q)) with
  | Z0 => [48%N]
  | Zpos p => digits_of_uint (Pos.to_uint p)
  | Zneg p => MINUS :: digits_of_uint (Pos.to_uint p)
  end.

Fixpoint parse_digits (acc : N) (s : str) : option N :=
  match s with
  | [] => Some acc
  | c :: s' =>
    if ((48 <=? c) && (c <=? 57))%N
    then parse_digits (acc * 10 + (c - 48))%N s'
    else None
  end.

Definition parse_whole (s : str) : option Q :=
  match s with
  | [] => None
  | c :: s' =>
    if (c =? MINUS)%N then
      match s' with
      | [] => None
      | _ :: _ =>
        match parse_digits 0 s' with
        | Some n => Some (inject_Z (- Z.of_N n))
        | None => None
        end
      end
    else
      match parse_digits 0 s with
      | Some n => Some (inject_Z (Z.of_N n))
      | None => None
      end
  end.

(** ** The aggregates (lines 95-102, 105, 128) *)

Definition COL_CATEGORY : str := Eval vm_compute in lit "서비스_업종_코드_명".
Definition COL_AMOUNT : str := Eval vm_compute in lit "당월_매출_금액".
Definition COL_MALE : str := Eval vm_compute in lit "남성_매출_금액".
Definition COL_FEMALE : str := Eval vm_compute in lit "여성_매출_금액".
Definition COL_QUARTER : str := Eval vm_compute in lit "기준_년분기_코드".
Definition PAT_AGE : str := Eval vm_compute in lit "연령대".
Definition SUFFIX_AGE : str := Eval vm_compute in lit "대".
Definition GANGNAM : str := Eval vm_compute in lit "강남구".

(** [Series.sum()]: NaN is skipped.  On a [str] cell pandas concatenates or
    raises; the columns summed by the script hold numbers only (they are
    coerced by lines 60-62), and the model raises [TypeError] there.  The
    sum is the exact one: pandas rounds in a [float64] column and wraps in
    an [int64] column. *)
Fixpoint series_sum (vs : Series) : result Q :=
  match vs with
  | [] => Ok 0
  | CNum q :: vs' => (s <- series_sum vs' ;; Ok (q + s))%result
  | CNaN :: vs' => series_sum vs'
  | CStr _ :: _ => Raise TypeError
  end.

(** [Series.count()]: the cells that are not NaN. *)
Definition series_count (vs : Series) : nat :=
  length (filter (fun c => negb (isna c)) vs).

(** [Series.mean()]: the sum over the count, NaN when nothing is counted. *)
Definition series_mean (vs : Series) : result cell :=
  (s <- series_sum vs ;;
   match series_count vs with
   | O => Ok CNaN
   | S _ => Ok (CNum (s / inject_Z (Z.of_nat (series_count vs))))
   end)%result.

(** Line 95. *)
Definition is_age_col (c : str) : bool :=
  contains PAT_AGE c && contains PAT_AMOUNT c.

Definition age_cols (df : DataFrame) : list str :=
  filter is_age_col (columns df).

(** Line 96: [sub_df[age_cols].sum()], a sum per selected column. *)
Fixpoint column_sums (sub_df : DataFrame) (cols : list str)
  : result (list (str * Q)) :=
  match cols with
  | [] => Ok []
  | c :: rest =>
    (vs <- getitem sub_df c ;;
     s <- series_sum vs ;;
     sums <- column_sums sub_df rest ;;
     Ok ((c, s) :: sums))%result
  end.

(** [Series.idxmax()]: the label of the first maximum. *)
Fixpoint first_max (best : str * Q) (rest : list (str * Q)) : str * Q :=
  match rest with
  | [] => best
  | x :: rest' =>
    if Qle_bool (snd x) (snd best) then first_max best rest'
    else first_max x rest'
  end.

Definition idxmax (totals : list (str * Q)) : result str :=
  match totals with
  | [] => Raise ValueError
  | x :: rest => Ok (fst (first_max x rest))
  end.

(** [s.split(sep)] for a one-character separator. *)
Fixpoint split_on (sep : N) (s : str) : list str :=
  match s with
  | [] => [[]]
  | c :: s' =>
    if (c =? sep)%N then [] :: split_on sep s'
    else
      match split_on sep s' with
      | h :: t => (c :: h) :: t
      | [] => [[c]]
      end
  end.

Definition UNDERSCORE : N := 95.

(** [c.split('_')[1] + "대"] (lines 97 and 117). *)
Definition age_label (c : str) : result str :=
  match nth_error (split_on UNDERSCORE c) 1 with
  | Some part => Ok (part ++ SUFFIX_AGE)
  | None => Raise IndexError
  end.

(** Line 117: the labels of the chart, one per age column. *)
Fixpoint age_labels (cols : list str) : result (list str) :=
  match cols with
  | [] => Ok []
  | c :: cols' =>
    (l <- age_label c ;;
     ls <- age_labels cols' ;;
     Ok (l :: ls))%result
  end.

(** Insertion sort, stable: [sorted], and the order of [sort_values] on
    the few entries it gets here. *)
Fixpoint insert_by {A} (leb : A -> A -> bool) (x : A) (l : list A) : list A :=
  match l with
  | [] => [x]
  | y :: l' => if leb x y then x :: l else y :: insert_by leb x l'
  end.

Definition sort_by {A} (leb : A -> A -> bool) (l : list A) : list A :=
  fold_right (insert_by leb) [] l.

(** [Series.unique()]: the values in order of first appearance. *)
Fixpoint unique (vs : Series) : list cell :=
  match vs with
  | [] => []
  | c :: vs' => c :: filter (fun d => negb (cell_same c d)) (unique vs')
  end.

(** The keys of [groupby]: NaN dropped, distinct, sorted. *)
Definition group_keys (cats : Series) : list cell :=
  sort_by cell_leb (unique (filter (fun c => negb (isna c)) cats)).

(** The values of the rows whose key is [key]. *)
Fixpoint group_values (key : cell) (cats vals : Series) : Series :=
  match cats, vals with
  | c :: cats', v :: vals' =>
    if cell_same c key then v :: group_values key cats' vals'
    else group_values key cats' vals'
  | _, _ => []
  end.

Fixpoint group_means (keys : list cell) (cats vals : Series)
  : result (list (cell * cell)) :=
  match keys with
  | [] => Ok []
  | k :: keys' =>
    (m <- series_mean (group_values k cats vals) ;;
     ms <- group_means keys' cats vals ;;
     Ok ((k, m) :: ms))%result
  end.

(** The order of [sort_values(ascending=False)]: larger first, NaN last. *)
Definition mean_geb (a b : cell) : bool :=
  match a, b with
  | CNum x, CNum y => Qle_bool y x
  | CNum _, _ => true
  | _, CNum _ => false
  | _, _ => true
  end.

Definition entry_geb (a b : cell * cell) : bool := mean_geb (snd a) (snd b).

(** Line 100. *)
Definition industry_rank (sub_df : DataFrame) : result (list (cell * cell)) :=
  (cats <- getitem sub_df COL_CATEGORY ;;
   vals <- getitem sub_df COL_AMOUNT ;;
   means <- group_means (group_keys cats) cats vals ;;
   Ok (sort_by entry_geb means))%result.

(** [industry_rank.index[0]] with [industry_rank.values[0]] (lines 101-102). *)
Definition first_entry (rank : list (cell * cell)) : result (cell * cell) :=
  match rank with
  | [] => Raise IndexError
  | e :: _ => Ok e
  end.

(** [int(x)] of a number: truncation towards zero; of NaN: [ValueError].
    [int] of an infinite [float] raises [OverflowError]; cells have no
    infinity, so that outcome is outside the model. *)
Definition py_int (x : cell) : result Z :=
  match x with
  | CNum q => Ok (Z.quot (Qnum q) (Zpos (Qden q)))
  | CNaN => Raise ValueError
  | CStr _ => Raise ValueError
  end.

(** ** The script (lines 67-161) *)

(** What the script shows, call by call.  Layout calls ([st.columns],
    [st.divider], the captions of [st.write]) carry no data and are left
    out; formatted texts are recorded by the values they are built from. *)
Inductive event : Type :=
| Title
| FileNotFound                                       (* st.error, line 46 *)
| SidebarHeader
| SelectDistrict (options : list cell) (index : nat) (* line 76 *)
| SelectQuarter                                      (* line 80 *)
| NoDataWarning                                      (* st.warning, line 89 *)
| Subheader (district : option cell) (quarter : option Z)
| Metrics (total : Z) (main_age_group : str) (top_industry : cell)
| AgeChart (labels : list str) (totals : list Q)
| GenderPie (male female : Q)
| RankTable (top10 : list (cell * cell))
| RankChart (top10 : list (cell * cell))
| Insight (main_age_group : str) (top_industry : cell) (value : Z)
| SidebarFooter.                                     (* lines 160-161 *)

(** A run: the events shown so far, and a value or the exception that
    ended the run. *)
Definition App (A : Type) : Type := list event * result A.

Definition ret {A} (a : A) : App A := ([], Ok a).

Definition bind {A B} (m : App A) (k : A -> App B) : App B :=
  match m with
  | (t, Ok a) => let (t', r) := k a in (t ++ t', r)
  | (t, Raise e) => (t, Raise e)
  end.

Definition emit (e : event) : App unit := ([e], Ok tt).

Definition lift {A} (r : result A) : App A := ([], r).

Declare Scope app_scope.
Delimit Scope app_scope with app.
Notation "x <- m ;; k" := (bind m (fun x => k))
  (at level 61, m at next level, right associativity) : app_scope.
Notation "m ;; k" := (bind m (fun _ => k))
  (at level 61, right associativity) : app_scope.

(** What the user does with the two select boxes.  The borough box returns
    one of its options: the one picked, or the preselected one.  The quarter
    box is recorded by its outcome: [None] for the first option ("전체"),
    [Some z] for an option [q] with [int(str(q)) = z].  A run in which
    [sorted] (line 78) or [int] (line 86) raises ends before any view exists
    and is not a run of this model. *)
Record user : Type := {
  pick_district : option nat;
  pick_quarter : option Z
}.

(** [st.selectbox(label, options, index)]: [None] when there is no option. *)
Definition selectbox (options : list cell) (index : nat) (pick : option nat)
  : option cell :=
  match pick with
  | Some i =>
    match nth_error options i with
    | Some o => Some o
    | None => nth_error options index
    end
  | None => nth_error options index
  end.

(** [l.index(x)]. *)
Fixpoint index_of (x : cell) (l : list cell) : nat :=
  match l with
  | [] => 0
  | y :: l' => if cell_eqb y x then 0 else S (index_of x l')
  end.

(** Line 75. *)
Definition districts_of (labels : Series) : list cell :=
  sort_by cell_leb
    (filter (fun d => negb (cell_eqb d (CStr UNCLASSIFIED))) (unique labels)).

(** Line 76, third argument. *)
Definition default_index (districts : list cell) : nat :=
  if existsb (fun d => cell_eqb d (CStr GANGNAM)) districts
  then index_of (CStr GANGNAM) districts
  else 0.

(** [df['자치구'] == selected_dist]. *)
Definition district_mask (labels : Series) (selected : option cell)
  : list bool :=
  map (fun c => match selected with
                | Some d => cell_eqb c d
                | None => false
                end) labels.

(** [df['기준_년분기_코드'] == int(selected_q)]. *)
Definition quarter_mask (quarters : Series) (z : Z) : list bool :=
  map (fun c => cell_eqb c (CNum (inject_Z z))) quarters.

(** [a & b] on two masks. *)
Fixpoint mask_and (a b : list bool) : list bool :=
  match a, b with
  | x :: a', y :: b' => (x && y) :: mask_and a' b'
  | _, _ => []
  end.

(** Lines 83-86. *)
Definition view_mask (labels quarters : Series) (selected : option cell)
  (q : option Z) : list bool :=
  match q with
  | None => district_mask labels selected
  | Some z => mask_and (district_mask labels selected) (quarter_mask quarters z)
  end.

Section Script.

Variable repr_num : Q -> str.
Variable parse_num : str -> option Q.

(** Lines 43-64.  [file] is what [read_csv] makes of the file at
    [FILE_PATH], [None] when no file is there.  [st.cache_data] keeps the
    returned frame for later runs and changes no value. *)
Definition load_data (file : option DataFrame) : App DataFrame :=
  match file with
  | None => (emit FileNotFound ;; ret [])%app
  | Some csv => lift (preprocess repr_num parse_num csv)
  end.

(** Lines 72-86: the two select boxes and the filtered view.  The only
    exceptions modelled are the [KeyError]s of the two column look-ups; the
    [TypeError] of [sorted] on a quarter column of mixed cells (line 78) and
    the [ValueError] of [int(selected_q)] (line 86) are not, so a returned
    view stands for a run in which neither was raised. *)
Definition filtered_view (df : DataFrame) (u : user)
  : App (option cell * DataFrame) :=
  (emit SidebarHeader ;;
   labels <- lift (getitem df COL_DISTRICT) ;;
   let districts := districts_of labels in
   emit (SelectDistrict districts (default_index districts)) ;;
   let selected_dist :=
     selectbox districts (default_index districts) (pick_district u) in
   quarters <- lift (getitem df COL_QUARTER) ;;
   emit SelectQuarter ;;
   ret (selected_dist,
        df_select (view_mask labels quarters selected_dist (pick_quarter u))
          df))%app.

(** Lines 91-158. *)
Definition summary (df sub_df : DataFrame) (selected_dist : option cell)
  (u : user) : App unit :=
  (emit (Subheader selected_dist (pick_quarter u)) ;;
   age_totals <- lift (column_sums sub_df (age_cols df)) ;;
   top_age <- lift (idxmax age_totals) ;;
   main_age_group <- lift (age_label top_age) ;;
   rank <- lift (industry_rank sub_df) ;;
   top <- lift (first_entry rank) ;;
   amounts <- lift (getitem sub_df COL_AMOUNT) ;;
   total <- lift (series_sum amounts) ;;
   total_int <- lift (py_int (CNum total)) ;;
   emit (Metrics total_int main_age_group (fst top)) ;;
   labels <- lift (age_labels (age_cols df)) ;;
   emit (AgeChart labels (map snd age_totals)) ;;
   males <- lift (getitem sub_df COL_MALE) ;;
   male <- lift (series_sum males) ;;
   females <- lift (getitem sub_df COL_FEMALE) ;;
   female <- lift (series_sum females) ;;
   emit (GenderPie male female) ;;
   emit (RankTable (firstn 10 rank)) ;;
   emit (RankChart (firstn 10 rank)) ;;
   value <- lift (py_int (snd top)) ;;
   emit (Insight main_age_group (fst top) value))%app.

(** The whole script. *)
Definition dashboard (file : option DataFrame) (u : user) : App unit :=
  (emit Title ;;
   df <- load_data file ;;
   (if negb (df_empty df) then
      sel <- filtered_view df u ;;
      if df_empty (snd sel) then emit NoDataWarning
      else summary df (snd sel) (fst sel) u
    else ret tt) ;;
   emit SidebarFooter)%app.

End Script.

(** A view of exactly one row: it has a column, and every column has one
    cell. *)
Definition single_row (view : DataFrame) : bool :=
  negb (length view =? 0)%nat
  && forallb (fun cv => (length (snd cv) =? 1)%nat) view.

(** Some row of the view has a category name. *)
Definition has_category (view : DataFrame) : bool :=
  match getitem view COL_CATEGORY with
  | Ok cats => existsb (fun c => negb (isna c)) cats
  | Raise _ => false
  end.

(** ** Notions used in the statements *)

(** [p] occurs in [s]: some code points, then [p], then the rest. *)
Definition substring (p s : str) : Prop :=
  exists before after, s = before ++ p ++ after.

(** The frame of line 57: the frame read, with the borough column. *)
Definition with_districts (repr_num : Q -> str) (csv : DataFrame)
  (names : Series) : DataFrame :=
  setitem csv COL_DISTRICT
    (map (fun name => CStr (match_district repr_num name)) names).

(** What lines 60-62 make of one cell. *)
Definition coerced_cell (parse_num : str -> option Q) (x : cell) : cell :=
  match x with
  | CStr s =>
    match parse_num s with
    | Some q => CNum q
    | None => CNum 0
    end
  | CNum q => CNum q
  | CNaN => CNum 0
  end.

(** A column of numbers: no text, no missing value. *)
Definition is_num (x : cell) : bool :=
  match x with
  | CNum _ => true
  | _ => false
  end.

Definition numeric (vs : Series) : Prop := Forall (fun c => is_num c = true) vs.

(** A boolean order as a relation. *)
Definition holds {A} (leb : A -> A -> bool) (a b : A) : Prop := leb a b = true.


(** Every column has [n] cells. *)
Definition all_length (n : nat) (df : DataFrame) : bool :=
  forallb (fun cv => (length (snd cv) =? n)%nat) df.

(** The events a summary shows. *)
Definition summary_event (e : event) : bool :=
  match e with
  | Subheader _ _ | Metrics _ _ _ | AgeChart _ _ | GenderPie _ _
  | RankTable _ | RankChart _ | Insight _ _ _ => true
  | _ => false
  end.

(** ** A small file *)

(** Three rows to run the model on: one area with no keyword, one in
    "서초구", one in "강남구"; one count cell that is not a number. *)
Definition demo_csv : DataFrame :=
  [ (lit "기준_년분기_코드", [CNum 20231; CNum 20231; CNum 20232]);
    (lit "상권_코드_명",
     [CStr (lit "북한산"); CStr (lit "강남역 먹자골목"); CStr (lit "압구정 로데오")]);
    (lit "서비스_업종_코드_명",
     [CStr (lit "한식음식점"); CStr (lit "커피-음료"); CStr (lit "한식음식점")]);
    (lit "당월_매출_금액", [CNum 999; CNum 100; CNum 200]);
    (lit "당월_매출_건수", [CStr (lit "12"); CStr (lit "-"); CNaN]);
    (lit "연령대_10_매출_금액", [CNum 9; CNum 30; CNum 120]);
    (lit "연령대_20_매출_금액", [CNum 990; CNum 70; CNum 80]);
    (lit "남성_매출_금액", [CNum 500; CNum 40; CNum 150]);
    (lit "여성_매출_금액", [CNum 499; CNum 60; CNum 50]) ].

(** Two rows of one borough, of two categories. *)
Definition two_csv : DataFrame :=
  [ (lit "기준_년분기_코드", [CNum 20231; CNum 20231]);
    (lit "상권_코드_명", [CStr (lit "역삼역"); CStr (lit "논현역")]);
    (lit "서비스_업종_코드_명", [CStr (lit "A"); CStr (lit "B")]);
    (lit "당월_매출_금액", [CNum 100; CNum 200]);
    (lit "연령대_10_매출_금액", [CNum 60; CNum 90]);
    (lit "연령대_20_매출_금액", [CNum 40; CNum 110]);
    (lit "남성_매출_금액", [CNum 70; CNum 80]);
    (lit "여성_매출_금액", [CNum 30; CNum 120]) ].

Definition two_df : DataFrame :=
  Eval vm_compute in
    match preprocess repr_whole parse_whole two_csv with
    | Ok df => df
    | Raise _ => []
    end.

(** One row whose category cell is empty in the file. *)
Definition nameless_csv : DataFrame :=
  [ (lit "기준_년분기_코드", [CNum 20231]);
    (lit "상권_코드_명", [CStr (lit "역삼역")]);
    (lit "서비스_업종_코드_명", [CNaN]);
    (lit "당월_매출_금액", [CNum 500]);
    (lit "연령대_10_매출_금액", [CNum 200]);
    (lit "연령대_20_매출_금액", [CNum 300]);
    (lit "남성_매출_금액", [CNum 100]);
    (lit "여성_매출_금액", [CNum 400]) ].

Definition nameless_df : DataFrame :=
  Eval vm_compute in
    match preprocess repr_whole parse_whole nameless_csv with
    | Ok df => df
    | Raise _ => []
    end.


(** The user who leaves both select boxes as they are. *)
Definition default_user : user :=
  {| pick_district := None; pick_quarter := None |}.

(** A file with its header and no data row. *)
Definition header_only_csv : DataFrame :=
  map (fun cv => (fst cv, @nil cell)) demo_csv.

(** The small file without its area-name column, and without its quarter
    column. *)
Definition no_area_csv : DataFrame :=
  filter (fun cv => negb (str_eqb (fst cv) COL_AREA)) demo_csv.

Definition no_quarter_csv : DataFrame :=
  filter (fun cv => negb (str_eqb (fst cv) COL_QUARTER)) demo_csv.







(** The frame the loader makes of it. *)
Definition demo_df : DataFrame :=
  Eval vm_compute in
    match preprocess repr_whole parse_whole demo_csv with
    | Ok df => df
    | Raise _ => []
    end.

(* ================================================================== *)
(** * Theorems *)
(* ================================================================== *)

Example lit_jongno : lit "종로" = [51333%N; 47196%N].
Proof. reflexivity. Qed.

Example table_size : length KEYWORD_TO_DISTRICT = 90%nat.
Proof. reflexivity. Qed.

(** ** Strings *)

Lemma str_eqb_eq (a b : str) : str_eqb a b = true <-> a = b.
Proof.
  revert b; induction a as [|x a IH]; intros [|y b]; simpl;
    try (split; [discriminate | discriminate]); try tauto.
  rewrite andb_true_iff, N.eqb_eq, IH.
  split; [intros [-> ->]; reflexivity | intros H; inversion H; auto].
Qed.

Lemma str_eqb_refl (a : str) : str_eqb a a = true.
Proof. apply str_eqb_eq; reflexivity. Qed.

Lemma startswith_spec (p s : str) :
  startswith p s = true <-> exists after, s = p ++ after.
Proof.
  revert s; induction p as [|a p IH]; intros s; simpl.
  - split; [intros _; exists s; reflexivity | reflexivity].
  - destruct s as [|b s].
    + split; [discriminate | intros [t H]; discriminate].
    + rewrite andb_true_iff, N.eqb_eq, IH. split.
      * intros [-> [t ->]]. exists t; reflexivity.
      * intros [t H]. inversion H; subst. split; [reflexivity | exists t; reflexivity].
Qed.

Lemma contains_spec (p s : str) : contains p s = true <-> substring p s.
Proof.
  unfold substring. induction s as [|b s IH].
  - simpl. rewrite orb_false_r, startswith_spec. split.
    + intros [t H]. exists [], t. exact H.
    + intros [u [t H]]. destruct u as [|x u]; [exists t; exact H | discriminate].
  - cbn [contains]. rewrite orb_true_iff, startswith_spec, IH. split.
    + intros [[t H] | [u [t H]]].
      * exists [], t. exact H.
      * exists (b :: u), t. rewrite H. reflexivity.
    + intros [u [t H]]. destruct u as [|x u].
      * left. exists t. exact H.
      * right. inversion H; subst. exists u, t. reflexivity.
Qed.

Lemma contains_false (p s : str) : contains p s = false <-> ~ substring p s.
Proof.
  rewrite <- contains_spec. destruct (contains p s); split; intros H;
    try reflexivity; try discriminate; auto. exfalso; apply H; reflexivity.
Qed.

(** ** The classifier *)

Lemma scan_keywords_spec (items : list (str * str)) (s : str) :
  (exists before kw dist after,
      items = before ++ (kw, dist) :: after /\
      substring kw s /\
      (forall kw' d', In (kw', d') before -> ~ substring kw' s) /\
      scan_keywords items s = dist)
  \/
  ((forall kw d, In (kw, d) items -> ~ substring kw s) /\
   scan_keywords items s = UNCLASSIFIED).
Proof.
  induction items as [|[kw dist] rest IH]; simpl.
  - right. split; [intros ? ? [] | reflexivity].
  - destruct (contains kw s) eqn:E.
    + left. exists [], kw, dist, rest. repeat split.
      * apply contains_spec; exact E.
      * intros ? ? [].
    + apply contains_false in E.
      destruct IH as [(b & k & d & a & -> & Hk & Hb & Hr) | [Hn Hr]].
      * left. exists ((kw, dist) :: b), k, d, a. repeat split; auto.
        intros kw' d' [H | H]; [inversion H; subst; exact E | eauto].
      * right. split; [| exact Hr].
        intros kw' d' [H | H]; [inversion H; subst; exact E | eauto].
Qed.

Lemma scan_keywords_range (items : list (str * str)) (s : str) :
  scan_keywords items s = UNCLASSIFIED \/
  exists kw, In (kw, scan_keywords items s) items /\ contains kw s = true.
Proof.
  induction items as [|[kw dist] rest IH]; simpl; [left; reflexivity |].
  destruct (contains kw s) eqn:E.
  - right. exists kw. split; [left; reflexivity | exact E].
  - destruct IH as [H | [k [H1 H2]]]; [left; exact H | right; exists k; auto].
Qed.

(** The keys of the table are pairwise different, so the dictionary literal
    is the list of its entries as written. *)
Lemma KEYWORD_TO_DISTRICT_as_written :
  KEYWORD_TO_DISTRICT
  = map (fun kv => (lit (fst kv), lit (snd kv))) KEYWORD_TO_DISTRICT_literal.
Proof. vm_compute. reflexivity. Qed.

(** C1 as stated fails on its example: "창동" occurs in "평창동", so the
    classifier answers "도봉구", not "기타/미분류". *)
Lemma C1_pyeongchang_is_dobong :
  match_district repr_whole (CStr (lit "평창동")) = lit "도봉구"
  /\ In (lit "창동", lit "도봉구") KEYWORD_TO_DISTRICT
  /\ contains (lit "창동") (lit "평창동") = true
  /\ lit "도봉구" <> UNCLASSIFIED.
Proof.
  split; [| split; [| split]].
  - vm_compute. reflexivity.
  - rewrite KEYWORD_TO_DISTRICT_as_written. apply in_map_iff.
    exists ("창동"%string, "도봉구"%string). split; [reflexivity |].
    vm_compute. tauto.
  - vm_compute. reflexivity.
  - vm_compute. discriminate.
Qed.

(** C1 (amended). For every area name the classifier returns one label:
    the borough of the first keyword, in the order of the table, that occurs
    in the name, and the label "기타/미분류" when no keyword occurs in it.
    "북한산" gets that label; "평창동" gets "도봉구", through "창동". *)
Theorem C1_first_match_or_unclassified :
  (forall (repr_num : Q -> str) (name : str),
      (exists before kw dist after,
          KEYWORD_TO_DISTRICT = before ++ (kw, dist) :: after /\
          substring kw name /\
          (forall kw' d', In (kw', d') before -> ~ substring kw' name) /\
          match_district repr_num (CStr name) = dist)
      \/
      ((forall kw d, In (kw, d) KEYWORD_TO_DISTRICT -> ~ substring kw name) /\
       match_district repr_num (CStr name) = UNCLASSIFIED))
  /\ UNCLASSIFIED = lit "기타/미분류"
  /\ (forall repr_num : Q -> str,
         match_district repr_num (CStr (lit "북한산")) = lit "기타/미분류")
  /\ (forall repr_num : Q -> str,
         match_district repr_num (CStr (lit "평창동")) = lit "도봉구").
Proof.
  split; [| split; [| split]].
  - intros repr_num name. unfold match_district. simpl py_str.
    apply scan_keywords_spec.
  - reflexivity.
  - intros repr_num. vm_compute. reflexivity.
  - intros repr_num. vm_compute. reflexivity.
Qed.

(** C8. "강남역 먹자골목" is classified "서초구": the first keyword of the
    table that occurs in it is "강남역"; the table has no keyword "강남";
    "압구정", whose borough is "강남구", does not occur in it. *)
Theorem C8_gangnam_station_is_seocho :
  (forall repr_num : Q -> str,
      match_district repr_num (CStr (lit "강남역 먹자골목")) = lit "서초구")
  /\ find (fun kd => contains (fst kd) (lit "강남역 먹자골목")) KEYWORD_TO_DISTRICT
     = Some (lit "강남역", lit "서초구")
  /\ existsb (fun kd => str_eqb (fst kd) (lit "강남")) KEYWORD_TO_DISTRICT = false
  /\ In (lit "압구정", lit "강남구") KEYWORD_TO_DISTRICT
  /\ contains (lit "압구정") (lit "강남역 먹자골목") = false.
Proof.
  split; [| split; [| split; [| split]]].
  - intros repr_num. vm_compute. reflexivity.
  - vm_compute. reflexivity.
  - vm_compute. reflexivity.
  - rewrite KEYWORD_TO_DISTRICT_as_written. apply in_map_iff.
    exists ("압구정"%string, "강남구"%string). split; [reflexivity |].
    vm_compute. tauto.
  - vm_compute. reflexivity.
Qed.

(** ** Frames *)

Lemma str_eqb_sym (a b : str) : str_eqb a b = str_eqb b a.
Proof.
  destruct (str_eqb a b) eqn:E.
  - apply str_eqb_eq in E. subst. symmetry. apply str_eqb_refl.
  - destruct (str_eqb b a) eqn:E'; [| reflexivity].
    apply str_eqb_eq in E'. subst. rewrite str_eqb_refl in E. discriminate.
Qed.

Lemma getitem_setitem (df : DataFrame) (c c' : str) (w : Series) :
  getitem (setitem df c w) c' = if str_eqb c c' then Ok w else getitem df c'.
Proof.
  induction df as [|[n vs] df IH]; simpl.
  - destruct (str_eqb c c'); reflexivity.
  - destruct (str_eqb n c) eqn:E; simpl.
    + apply str_eqb_eq in E. subst n. destruct (str_eqb c c'); reflexivity.
    + destruct (str_eqb n c') eqn:E'.
      * apply str_eqb_eq in E'. subst n. rewrite str_eqb_sym, E. reflexivity.
      * exact IH.
Qed.

Lemma getitem_In (df : DataFrame) (c : str) :
  In c (columns df) <-> exists vs, getitem df c = Ok vs.
Proof.
  induction df as [|[n vs] df IH]; simpl.
  - split; [intros [] | intros [vs H]; discriminate].
  - destruct (str_eqb n c) eqn:E.
    + apply str_eqb_eq in E. split; [intros _; eauto | auto].
    + rewrite <- IH. split; [intros [H | H]; [| exact H] | auto].
      subst n. rewrite str_eqb_refl in E. discriminate.
Qed.

Lemma getitem_Raise (df : DataFrame) (c : str) (e : exn) :
  getitem df c = Raise e -> e = KeyError c /\ ~ In c (columns df).
Proof.
  intros H. split.
  - induction df as [|[n vs] df IH]; simpl in H; [congruence |].
    destruct (str_eqb n c); [discriminate | auto].
  - intros Hin. apply getitem_In in Hin. destruct Hin as [vs Hvs]. congruence.
Qed.

Lemma columns_setitem_present (df : DataFrame) (c : str) (w : Series) :
  In c (columns df) -> columns (setitem df c w) = columns df.
Proof.
  induction df as [|[n vs] df IH]; simpl; [intros [] |].
  intros H. destruct (str_eqb n c) eqn:E; simpl; [reflexivity |].
  f_equal. apply IH. destruct H as [H | H]; [| exact H].
  subst n. rewrite str_eqb_refl in E. discriminate.
Qed.

Lemma columns_setitem_absent (df : DataFrame) (c : str) (w : Series) :
  ~ In c (columns df) -> columns (setitem df c w) = columns df ++ [c].
Proof.
  induction df as [|[n vs] df IH]; simpl; [reflexivity |].
  intros H. destruct (str_eqb n c) eqn:E; simpl.
  - apply str_eqb_eq in E. tauto.
  - f_equal. apply IH. tauto.
Qed.

Lemma existsb_str_eqb (c : str) (l : list str) :
  existsb (str_eqb c) l = true <-> In c l.
Proof.
  rewrite existsb_exists. split.
  - intros [x [Hx E]]. apply str_eqb_eq in E. subst. exact Hx.
  - intros H. exists c. split; [exact H | apply str_eqb_refl].
Qed.

(** ** The loader *)

Section LoaderFacts.

Variable repr_num : Q -> str.
Variable parse_num : str -> option Q.

Lemma coerce_length (vs : Series) :
  length (coerce parse_num vs) = length vs.
Proof. unfold coerce. rewrite !length_map. reflexivity. Qed.

Lemma coerce_idempotent (vs : Series) :
  coerce parse_num (coerce parse_num vs) = coerce parse_num vs.
Proof.
  unfold coerce. rewrite !map_map. apply map_ext. intros c.
  destruct c as [s | q |]; simpl; [destruct (parse_num s) |..]; reflexivity.
Qed.

Lemma coerce_columns_spec (cols : list str) : forall df : DataFrame,
  (forall c, In c cols -> In c (columns df)) ->
  exists df',
    coerce_columns parse_num cols df = Ok df' /\
    columns df' = columns df /\
    forall c, getitem df' c =
              match getitem df c with
              | Ok vs => Ok (if existsb (str_eqb c) cols
                             then coerce parse_num vs else vs)
              | Raise e => Raise e
              end.
Proof.
  induction cols as [|col rest IH]; intros df Hin; simpl.
  - exists df. repeat split. intros c. destruct (getitem df c); reflexivity.
  - assert (Hcol : In col (columns df)) by (apply Hin; left; reflexivity).
    destruct (proj1 (getitem_In df col) Hcol) as [vs Hvs].
    rewrite Hvs. simpl.
    destruct (IH (setitem df col (coerce parse_num vs))) as (df' & H1 & H2 & H3).
    { intros c Hc. rewrite columns_setitem_present by exact Hcol.
      apply Hin. right. exact Hc. }
    exists df'. split; [exact H1 |]. split.
    { rewrite H2. apply columns_setitem_present. exact Hcol. }
    intros c. rewrite H3, getitem_setitem.
    destruct (str_eqb col c) eqn:E.
    + apply str_eqb_eq in E. subst c. rewrite Hvs, str_eqb_refl. simpl.
      destruct (existsb (str_eqb col) rest);
        [rewrite coerce_idempotent |]; reflexivity.
    + rewrite str_eqb_sym, E. simpl. reflexivity.
Qed.

End LoaderFacts.

Section PreprocessFacts.

Variable repr_num : Q -> str.
Variable parse_num : str -> option Q.

Lemma preprocess_spec (csv : DataFrame) :
  match preprocess repr_num parse_num csv with
  | Raise e => getitem csv COL_AREA = Raise e
  | Ok df =>
    exists names,
      getitem csv COL_AREA = Ok names /\
      columns df = columns (with_districts repr_num csv names) /\
      forall c, getitem df c =
                match getitem (with_districts repr_num csv names) c with
                | Ok vs => Ok (if is_numeric_col c
                               then coerce parse_num vs else vs)
                | Raise e => Raise e
                end
  end.
Proof.
  unfold preprocess. destruct (getitem csv COL_AREA) as [names | e] eqn:E;
    simpl; [| reflexivity].
  fold (with_districts repr_num csv names).
  destruct (coerce_columns_spec parse_num
              (filter is_numeric_col (columns (with_districts repr_num csv names)))
              (with_districts repr_num csv names)) as (df' & H1 & H2 & H3).
  { intros c Hc. apply filter_In in Hc. tauto. }
  rewrite H1. exists names. repeat split; [exact H2 |].
  intros c. rewrite H3.
  destruct (getitem (with_districts repr_num csv names) c) as [vs | e] eqn:G;
    [| reflexivity].
  assert (Hin : In c (columns (with_districts repr_num csv names)))
    by (apply getitem_In; eauto).
  destruct (is_numeric_col c) eqn:N.
  - replace (existsb _ _) with true; [reflexivity |].
    symmetry. apply existsb_str_eqb, filter_In. tauto.
  - replace (existsb _ _) with false; [reflexivity |].
    symmetry. apply not_true_is_false. intros H.
    apply existsb_str_eqb, filter_In in H. destruct H; congruence.
Qed.

End PreprocessFacts.

Lemma coerce_cells (parse_num : str -> option Q) (vs : Series) :
  coerce parse_num vs = map (coerced_cell parse_num) vs.
Proof.
  unfold coerce. rewrite map_map. apply map_ext. intros c.
  destruct c as [s | q |]; simpl; [destruct (parse_num s) |..]; reflexivity.
Qed.

(** C6. The loader raises only when the area-name column is missing.
    Otherwise the loaded frame has the columns of the file and the borough
    column; every column whose name contains "매출_금액" or "매출_건수" has
    each cell replaced by its number, an unparsable or missing cell by 0, and
    keeps its length; every other column of the file is left as read, and
    the borough column is not a numeric one.  Loading a file that exists
    shows nothing to the user. *)
Theorem C6_numeric_columns_coerced :
  forall (repr_num : Q -> str) (parse_num : str -> option Q) (csv : DataFrame),
    match preprocess repr_num parse_num csv with
    | Raise e => getitem csv COL_AREA = Raise e
    | Ok df =>
      (forall c, In c (columns df) <-> In c (columns csv) \/ c = COL_DISTRICT)
      /\ (forall c, c <> COL_DISTRICT ->
            getitem df c =
            match getitem csv c with
            | Ok vs => Ok (if is_numeric_col c
                           then map (coerced_cell parse_num) vs else vs)
            | Raise e => Raise e
            end)
      /\ (forall c vs, c <> COL_DISTRICT -> getitem csv c = Ok vs ->
            exists vs', getitem df c = Ok vs' /\ length vs' = length vs)
    end
    /\ (forall s, parse_num s = None -> coerced_cell parse_num (CStr s) = CNum 0)
    /\ (forall c, is_numeric_col c = true <->
                  substring (lit "매출_금액") c \/ substring (lit "매출_건수") c)
    /\ is_numeric_col COL_DISTRICT = false
    /\ fst (load_data repr_num parse_num (Some csv)) = [].
Proof.
  intros repr_num parse_num csv.
  split; [| split; [| split; [| split]]]; [| | | reflexivity | reflexivity].
  - pose proof (preprocess_spec repr_num parse_num csv) as P.
    destruct (preprocess repr_num parse_num csv) as [df | e]; [| exact P].
    destruct P as (names & Hn & Hc & Hg).
    assert (Hother : forall c, c <> COL_DISTRICT ->
              getitem (with_districts repr_num csv names) c = getitem csv c).
    { intros c Hne. unfold with_districts. rewrite getitem_setitem.
      destruct (str_eqb COL_DISTRICT c) eqn:E; [| reflexivity].
      apply str_eqb_eq in E. congruence. }
    split; [| split].
    + intros c. rewrite Hc. unfold with_districts.
      destruct (in_dec (list_eq_dec N.eq_dec) COL_DISTRICT (columns csv)) as [i | n].
      * rewrite columns_setitem_present by exact i.
        split; [tauto | intros [H | ->]; assumption].
      * rewrite columns_setitem_absent by exact n.
        rewrite in_app_iff. simpl. split; [intros [H | [H | []]]; auto | ].
        intros [H | H]; auto.
    + intros c Hne. rewrite Hg, Hother by exact Hne.
      destruct (getitem csv c); [| reflexivity].
      rewrite coerce_cells. reflexivity.
    + intros c vs Hne G. rewrite Hg, Hother, G by exact Hne.
      destruct (is_numeric_col c); eexists; split; try reflexivity.
      apply coerce_length.
  - intros s H. simpl. rewrite H. reflexivity.
  - intros c. unfold is_numeric_col. rewrite orb_true_iff, !contains_spec.
    reflexivity.
Qed.

Lemma labels_not_blank :
  forallb (fun kd => negb (str_eqb (snd kd) [])) KEYWORD_TO_DISTRICT = true
  /\ str_eqb UNCLASSIFIED [] = false.
Proof. split; vm_compute; reflexivity. Qed.

(** C10. Whatever the cell (a text, a number, a missing value), the
    classifier turns it into text and returns the label "기타/미분류" or the
    borough of a keyword of the table, never an empty label; a missing value
    reads "nan" and is classified "기타/미분류".  The loader raises only when
    the area-name column is missing, and otherwise the borough column of the
    loaded frame holds the label of each area-name cell, row by row. *)
Theorem C10_classification_total :
  forall (repr_num : Q -> str) (parse_num : str -> option Q),
    (forall name : cell,
        (match_district repr_num name = UNCLASSIFIED \/
         exists kw, In (kw, match_district repr_num name) KEYWORD_TO_DISTRICT
                    /\ substring kw (py_str repr_num name))
        /\ match_district repr_num name <> [])
    /\ py_str repr_num CNaN = lit "nan"
    /\ match_district repr_num CNaN = UNCLASSIFIED
    /\ (forall csv : DataFrame,
           match preprocess repr_num parse_num csv with
           | Raise e => getitem csv COL_AREA = Raise e
           | Ok df =>
             exists names,
               getitem csv COL_AREA = Ok names /\
               getitem df COL_DISTRICT
               = Ok (map (fun name => CStr (match_district repr_num name)) names)
           end).
Proof.
  intros repr_num parse_num. split; [| split; [| split]].
  - intros name. unfold match_district.
    destruct (scan_keywords_range KEYWORD_TO_DISTRICT (py_str repr_num name))
      as [H | [kw [H1 H2]]].
    + split; [left; exact H |]. rewrite H. vm_compute. discriminate.
    + split; [right; exists kw; split; [exact H1 | apply contains_spec; exact H2] |].
      destruct labels_not_blank as [L _].
      rewrite forallb_forall in L. specialize (L _ H1). cbn [snd] in L.
      intros E. rewrite E in L. discriminate.
  - reflexivity.
  - vm_compute. reflexivity.
  - intros csv. pose proof (preprocess_spec repr_num parse_num csv) as P.
    destruct (preprocess repr_num parse_num csv) as [df | e]; [| exact P].
    destruct P as (names & Hn & _ & Hg). exists names. split; [exact Hn |].
    rewrite Hg. unfold with_districts. rewrite getitem_setitem, str_eqb_refl.
    reflexivity.
Qed.

(** ** A missing file *)

(** C5. When no file is at the path, the loader shows the file-not-found
    error and returns the empty frame; the script then raises nothing and
    shows, besides its title and the sidebar footer, only that error: no
    select box, no warning, no metric, no chart, no table. *)
Theorem C5_missing_file :
  forall (repr_num : Q -> str) (parse_num : str -> option Q) (u : user),
    load_data repr_num parse_num None = ([FileNotFound], Ok [])
    /\ df_empty [] = true
    /\ dashboard repr_num parse_num None u
       = ([Title; FileNotFound; SidebarFooter], Ok tt).
Proof. intros repr_num parse_num u. repeat split. Qed.

(** ** Sorting *)

Lemma insert_by_perm {A} (leb : A -> A -> bool) (x : A) (l : list A) :
  Permutation (insert_by leb x l) (x :: l).
Proof.
  induction l as [|y l IH]; simpl; [reflexivity |].
  destruct (leb x y); [reflexivity |].
  rewrite IH. apply perm_swap.
Qed.

Lemma sort_by_perm {A} (leb : A -> A -> bool) (l : list A) :
  Permutation (sort_by leb l) l.
Proof.
  induction l as [|x l IH]; simpl; [reflexivity |].
  rewrite insert_by_perm. constructor. exact IH.
Qed.

Lemma sort_by_In {A} (leb : A -> A -> bool) (l : list A) (x : A) :
  In x (sort_by leb l) <-> In x l.
Proof.
  split; apply Permutation_in;
    [apply sort_by_perm | symmetry; apply sort_by_perm].
Qed.

(** ** Views *)

Lemma getitem_df_select (mask : list bool) (df : DataFrame) (c : str) :
  getitem (df_select mask df) c =
  match getitem df c with
  | Ok vs => Ok (select mask vs)
  | Raise e => Raise e
  end.
Proof.
  induction df as [|[n vs] df IH]; simpl; [reflexivity |].
  destruct (str_eqb n c); [reflexivity | exact IH].
Qed.

Lemma columns_df_select (mask : list bool) (df : DataFrame) :
  columns (df_select mask df) = columns df.
Proof. unfold columns, df_select. rewrite map_map. reflexivity. Qed.




Lemma selectbox_In (options : list cell) (index : nat) (pick : option nat)
  (d : cell) :
  selectbox options index pick = Some d -> In d options.
Proof.
  unfold selectbox. intros H.
  destruct pick as [i |];
    [destruct (nth_error options i) eqn:E; [inversion H; subst |] |];
    eauto using nth_error_In.
Qed.




Lemma demo_df_loaded :
  preprocess repr_whole parse_whole demo_csv = Ok demo_df.
Proof. vm_compute. reflexivity. Qed.

Lemma filtered_view_spec (df : DataFrame) (u : user) :
  match filtered_view df u with
  | (t, Ok (selected, view)) =>
    exists labels quarters,
      getitem df COL_DISTRICT = Ok labels /\
      getitem df COL_QUARTER = Ok quarters /\
      selected = selectbox (districts_of labels)
                   (default_index (districts_of labels)) (pick_district u) /\
      view = df_select
               (view_mask labels quarters selected (pick_quarter u)) df /\
      t = [SidebarHeader;
           SelectDistrict (districts_of labels)
             (default_index (districts_of labels));
           SelectQuarter]
  | (t, Raise e) =>
    getitem df COL_DISTRICT = Raise e \/ getitem df COL_QUARTER = Raise e
  end.
Proof.
  unfold filtered_view, bind, lift, emit, ret.
  destruct (getitem df COL_DISTRICT) as [labels | e]; [| left; reflexivity].
  destruct (getitem df COL_QUARTER) as [quarters | e]; [| right; reflexivity].
  simpl. exists labels, quarters. repeat split.
Qed.



(** ** Sums over numeric columns *)

Lemma coerce_numeric (parse_num : str -> option Q) (vs : Series) :
  numeric (coerce parse_num vs).
Proof.
  rewrite coerce_cells. apply Forall_forall. intros c Hc.
  apply in_map_iff in Hc. destruct Hc as [x [<- _]].
  destruct x as [s | q |]; simpl; [destruct (parse_num s) |..]; reflexivity.
Qed.

Lemma select_numeric (mask : list bool) (vs : Series) :
  numeric vs -> numeric (select mask vs).
Proof.
  intros H. revert mask. induction H as [|c vs Hc H IH]; intros [|b mask];
    simpl; try constructor.
  destruct b; [constructor; [exact Hc | apply IH] | apply IH].
Qed.

Lemma series_sum_numeric (vs : Series) :
  numeric vs -> exists s, series_sum vs = Ok s.
Proof.
  induction 1 as [|c vs Hc H [s IH]]; simpl; [eauto |].
  destruct c as [t | q |]; try discriminate. rewrite IH. simpl. eauto.
Qed.

(** After loading, every column with a numeric name holds numbers only. *)
Lemma loaded_numeric (repr_num : Q -> str) (parse_num : str -> option Q)
  (csv df : DataFrame) :
  preprocess repr_num parse_num csv = Ok df ->
  forall c vs, is_numeric_col c = true -> getitem df c = Ok vs -> numeric vs.
Proof.
  intros L c vs Hc G.
  pose proof (preprocess_spec repr_num parse_num csv) as P. rewrite L in P.
  destruct P as (names & _ & _ & Hg). rewrite Hg, Hc in G.
  destruct (getitem (with_districts repr_num csv names) c); inversion G.
  apply coerce_numeric.
Qed.

Lemma is_age_col_numeric (c : str) :
  is_age_col c = true -> is_numeric_col c = true.
Proof.
  unfold is_age_col, is_numeric_col. rewrite andb_true_iff.
  intros [_ ->]. reflexivity.
Qed.

(** The columns of a view of a loaded frame that the script sums: each is
    there, and holds numbers only. *)
Lemma view_column_numeric (repr_num : Q -> str) (parse_num : str -> option Q)
  (csv df : DataFrame) (mask : list bool) (c : str) :
  preprocess repr_num parse_num csv = Ok df ->
  In c (columns df) -> is_numeric_col c = true ->
  exists vs, getitem (df_select mask df) c = Ok vs /\ numeric vs.
Proof.
  intros L Hin Hc. apply getitem_In in Hin. destruct Hin as [vs G].
  exists (select mask vs). rewrite getitem_df_select, G. split; [reflexivity |].
  apply select_numeric. eapply loaded_numeric; eauto.
Qed.

Lemma column_sums_spec (view : DataFrame) (cols : list str) :
  (forall c, In c cols -> exists vs, getitem view c = Ok vs /\ numeric vs) ->
  exists totals,
    column_sums view cols = Ok totals /\
    map fst totals = cols /\
    Forall (fun cs => exists vs, getitem view (fst cs) = Ok vs /\
                                 series_sum vs = Ok (snd cs)) totals.
Proof.
  induction cols as [|c cols IH]; intros H; simpl.
  - exists []. repeat split. constructor.
  - destruct (H c (or_introl eq_refl)) as (vs & G & N).
    destruct (series_sum_numeric N) as [s Hs].
    destruct IH as (totals & H1 & H2 & H3); [intros; apply H; right; assumption |].
    rewrite G. simpl. rewrite Hs. simpl. rewrite H1. simpl.
    exists ((c, s) :: totals). split; [reflexivity |]. split.
    + simpl. rewrite H2. reflexivity.
    + constructor; [exists vs; auto | exact H3].
Qed.

(** ** The first maximum *)

Lemma first_max_ge (best : str * Q) (rest : list (str * Q)) :
  forall y, In y (best :: rest) -> snd y <= snd (first_max best rest).
Proof.
  revert best. induction rest as [|x rest IH]; intros best y Hy; simpl.
  - destruct Hy as [<- | []]. apply Qle_refl.
  - destruct (Qle_bool (snd x) (snd best)) eqn:E.
    + apply Qle_bool_iff in E.
      destruct Hy as [<- | [<- | Hy]].
      * apply IH. left. reflexivity.
      * eapply Qle_trans; [exact E | apply IH; left; reflexivity].
      * apply IH. right. exact Hy.
    + assert (Hlt : snd best < snd x).
      { apply Qnot_le_lt. intros H. apply Qle_bool_iff in H. congruence. }
      destruct Hy as [<- | [<- | Hy]].
      * eapply Qle_trans; [apply Qlt_le_weak; exact Hlt |].
        apply IH. left. reflexivity.
      * apply IH. left. reflexivity.
      * apply IH. right. exact Hy.
Qed.

Lemma first_max_split (best : str * Q) (rest : list (str * Q)) :
  exists before after,
    best :: rest = before ++ first_max best rest :: after /\
    forall y, In y before -> snd y < snd (first_max best rest).
Proof.
  revert best. induction rest as [|x rest IH]; intros best; simpl.
  - exists [], []. split; [reflexivity | intros y []].
  - destruct (Qle_bool (snd x) (snd best)) eqn:E.
    + apply Qle_bool_iff in E.
      destruct (IH best) as (b & a & Hs & Hb).
      destruct b as [|b0 b].
      * simpl in Hs. injection Hs as H0 H1.
        exists [], (x :: a). split; [simpl; congruence |].
        intros y [].
      * simpl in Hs. injection Hs as H0 H1.
        exists (best :: x :: b), a. split; [simpl; congruence |].
        intros y [<- | [<- | Hy]].
        -- apply Hb. left. symmetry. exact H0.
        -- eapply Qle_lt_trans; [exact E |]. apply Hb. left. symmetry. exact H0.
        -- apply Hb. right. exact Hy.
    + assert (Hlt : snd best < snd x).
      { apply Qnot_le_lt. intros H. apply Qle_bool_iff in H. congruence. }
      destruct (IH x) as (b & a & Hs & Hb).
      exists (best :: b), a. split; [simpl; rewrite Hs; reflexivity |].
      intros y [<- | Hy]; [| apply Hb; exact Hy].
      eapply Qlt_le_trans; [exact Hlt |].
      apply first_max_ge. left. reflexivity.
Qed.

(** [idxmax] returns the first label whose total is the largest. *)
Lemma idxmax_spec (totals : list (str * Q)) :
  totals <> [] ->
  exists before c m after,
    idxmax totals = Ok c /\
    totals = before ++ (c, m) :: after /\
    (forall y, In y before -> snd y < m) /\
    (forall y, In y after -> snd y <= m).
Proof.
  destruct totals as [|x rest]; [congruence | intros _].
  destruct (first_max_split x rest) as (b & a & Hs & Hb).
  exists b, (fst (first_max x rest)), (snd (first_max x rest)), a.
  rewrite <- surjective_pairing. repeat split; auto.
  intros y Hy. apply first_max_ge. rewrite Hs. apply in_or_app.
  right. right. exact Hy.
Qed.

(** ** Age labels *)

Lemma split_on_nonempty (sep : N) (s : str) : split_on sep s <> [].
Proof.
  destruct s as [|c s]; simpl; [discriminate |].
  destruct (c =? sep)%N; [discriminate |].
  destruct (split_on sep s); discriminate.
Qed.

Lemma split_on_two (sep : N) (s : str) :
  In sep s -> exists a b rest, split_on sep s = a :: b :: rest.
Proof.
  induction s as [|c s IH]; simpl; [intros [] |].
  intros H. destruct (c =? sep)%N eqn:E.
  - pose proof (split_on_nonempty sep s) as Hn.
    destruct (split_on sep s) as [|b rest]; [congruence |]. eauto.
  - destruct H as [H | H]; [subst; rewrite N.eqb_refl in E; discriminate |].
    destruct (IH H) as (a & b & rest & ->). eauto.
Qed.

Lemma substring_In (p s : str) (x : N) :
  substring p s -> In x p -> In x s.
Proof.
  intros (before & after & ->) H. apply in_or_app. right.
  apply in_or_app. left. exact H.
Qed.

(** The name of an age column has an underscore, so line 97 cannot raise. *)
Lemma age_label_ok (c : str) :
  is_age_col c = true -> exists label, age_label c = Ok label.
Proof.
  intros H. apply is_age_col_numeric in H. unfold is_numeric_col in H.
  assert (Hu : In UNDERSCORE c).
  { apply orb_true_iff in H.
    destruct H as [H | H]; apply contains_spec in H;
      (eapply substring_In; [exact H |]); vm_compute; tauto. }
  destruct (split_on_two _ _ Hu) as (a & b & rest & E).
  unfold age_label. rewrite E. simpl. eauto.
Qed.

(** The totals per age column and their first maximum. *)
Lemma dominant_age_spec :
  forall (repr_num : Q -> str) (parse_num : str -> option Q)
         (csv df : DataFrame) (mask : list bool),
    preprocess repr_num parse_num csv = Ok df ->
    age_cols df <> [] ->
    exists totals before c m after label,
      column_sums (df_select mask df) (age_cols df) = Ok totals /\
      map fst totals = age_cols df /\
      Forall (fun cs => exists vs,
                  getitem (df_select mask df) (fst cs) = Ok vs /\
                  series_sum vs = Ok (snd cs)) totals /\
      idxmax totals = Ok c /\
      totals = before ++ (c, m) :: after /\
      (forall y, In y before -> snd y < m) /\
      (forall y, In y after -> snd y <= m) /\
      is_age_col c = true /\
      age_label c = Ok label.
Proof.
  intros repr_num parse_num csv df mask L Hne.
  destruct (column_sums_spec (df_select mask df) (age_cols df))
    as (totals & H1 & H2 & H3).
  { intros c Hc. apply filter_In in Hc. destruct Hc as [Hin Hage].
    eapply view_column_numeric; eauto using is_age_col_numeric. }
  assert (Ht : totals <> []).
  { intros ->. simpl in H2. congruence. }
  destruct (idxmax_spec Ht) as (before & c & m & after & I1 & I2 & I3 & I4).
  assert (Hc : is_age_col c = true).
  { assert (In c (age_cols df)).
    { rewrite <- H2, I2, map_app. apply in_or_app. right. left. reflexivity. }
    apply filter_In in H. tauto. }
  destruct (age_label_ok c Hc) as [label Hl].
  exists totals, before, c, m, after, label. repeat split; auto.
Qed.



Example demo_dominant_age :
  (totals <- column_sums (df_select [false; true; true] demo_df)
               (age_cols demo_df) ;;
   c <- idxmax totals ;;
   age_label c)%result
  = Ok (lit "10대").
Proof. vm_compute. reflexivity. Qed.

(** ** Keys of groups *)

Lemma Qeq_bool_sym (a b : Q) : Qeq_bool a b = Qeq_bool b a.
Proof.
  destruct (Qeq_bool a b) eqn:E, (Qeq_bool b a) eqn:E'; try reflexivity.
  - apply Qeq_bool_iff in E. symmetry in E. apply Qeq_bool_iff in E. congruence.
  - apply Qeq_bool_iff in E'. symmetry in E'. apply Qeq_bool_iff in E'. congruence.
Qed.

Lemma cell_same_sym (a b : cell) : cell_same a b = cell_same b a.
Proof.
  destruct a, b; unfold cell_same; simpl; try reflexivity.
  - rewrite str_eqb_sym. reflexivity.
  - rewrite Qeq_bool_sym. reflexivity.
Qed.

Lemma cell_same_refl (a : cell) : cell_same a a = true.
Proof.
  destruct a; unfold cell_same; simpl; try reflexivity.
  - rewrite str_eqb_refl. reflexivity.
  - rewrite (proj2 (Qeq_bool_iff q q)); [reflexivity | apply Qeq_refl].
Qed.

Lemma cell_same_trans (a b c : cell) :
  cell_same a b = true -> cell_same b c = true -> cell_same a c = true.
Proof.
  destruct a, b, c; unfold cell_same; simpl; try discriminate; try reflexivity.
  - rewrite !orb_false_r, !str_eqb_eq. congruence.
  - rewrite !orb_false_r, !Qeq_bool_iff. apply Qeq_trans.
Qed.

Lemma unique_In (vs : Series) (k : cell) : In k (unique vs) -> In k vs.
Proof.
  induction vs as [|c vs IH]; simpl; [tauto |].
  intros [H | H]; [left; exact H |]. apply filter_In in H. right. tauto.
Qed.

Lemma unique_complete (vs : Series) (c : cell) :
  In c vs -> exists k, In k (unique vs) /\ cell_same k c = true.
Proof.
  induction vs as [|c0 vs IH]; simpl; [intros [] |].
  intros [H | H].
  - subst. exists c. split; [left; reflexivity | apply cell_same_refl].
  - destruct (IH H) as (k & Hk & Hs).
    destruct (cell_same c0 k) eqn:E.
    + exists c0. split; [left; reflexivity |]. eapply cell_same_trans; eauto.
    + exists k. split; [| exact Hs]. right. apply filter_In.
      rewrite E. auto.
Qed.

(** At most one key of [unique] is the value [k]. *)
Lemma unique_once (vs : Series) (k : cell) :
  (length (filter (cell_same k) (unique vs)) <= 1)%nat.
Proof.
  induction vs as [|c vs IH]; simpl; [lia |].
  assert (Hle : (length (filter (cell_same k)
                    (filter (fun d => negb (cell_same c d)) (unique vs)))
                 <= length (filter (cell_same k) (unique vs)))%nat).
  { generalize (unique vs). intros l. induction l as [|d l IHl]; simpl; [lia |].
    destruct (cell_same c d); simpl; destruct (cell_same k d); simpl; lia. }
  destruct (cell_same k c) eqn:E; simpl; [| lia].
  assert (Hz : filter (cell_same k)
                 (filter (fun d => negb (cell_same c d)) (unique vs)) = []).
  { generalize (unique vs). intros l. induction l as [|d l IHl]; simpl; [reflexivity |].
    destruct (cell_same c d) eqn:E1; simpl; [exact IHl |].
    destruct (cell_same k d) eqn:E2; [| exact IHl].
    rewrite cell_same_sym in E.
    rewrite (cell_same_trans _ _ _ E E2) in E1. discriminate. }
  rewrite Hz. simpl. lia.
Qed.

Lemma filter_length_perm {A} (f : A -> bool) (l l' : list A) :
  Permutation l l' -> length (filter f l) = length (filter f l').
Proof.
  induction 1; simpl; try congruence.
  - destruct (f x); simpl; congruence.
  - destruct (f x), (f y); reflexivity.
Qed.


(** ** Sorted results *)

Section SortBy.

Variable A : Type.
Variable leb : A -> A -> bool.
Hypothesis leb_total : forall a b, leb a b = true \/ leb b a = true.
Hypothesis leb_trans :
  forall a b c, leb a b = true -> leb b c = true -> leb a c = true.

Lemma insert_by_hdrel (a x : A) (l : list A) :
  holds leb a x -> HdRel (holds leb) a l ->
  HdRel (holds leb) a (insert_by leb x l).
Proof.
  intros Hax Hl. destruct l as [|y l]; simpl; [constructor; exact Hax |].
  destruct (leb x y); constructor; [exact Hax |].
  inversion Hl; assumption.
Qed.

Lemma insert_by_sorted (x : A) (l : list A) :
  Sorted (holds leb) l -> Sorted (holds leb) (insert_by leb x l).
Proof.
  induction 1 as [|y l Hs IH Hhd]; simpl.
  - repeat constructor.
  - destruct (leb x y) eqn:E.
    + constructor; [constructor; assumption | constructor; exact E].
    + constructor; [exact IH |]. apply insert_by_hdrel; [| exact Hhd].
      destruct (leb_total x y) as [H | H]; [congruence | exact H].
Qed.

Lemma sort_by_sorted (l : list A) : StronglySorted (holds leb) (sort_by leb l).
Proof.
  apply Sorted_StronglySorted.
  - intros a b c. apply leb_trans.
  - induction l as [|x l IH]; simpl; [constructor |].
    apply insert_by_sorted. exact IH.
Qed.

End SortBy.



(** ** Means of groups *)




(** ** The ranking of categories *)




(** ** Views of one row *)

Lemma group_keys_single (k : cell) : isna k = false -> group_keys [k] = [k].
Proof. intros H. unfold group_keys. simpl. rewrite H. reflexivity. Qed.

Lemma industry_rank_single (view : DataFrame) (k : cell) (a : Q) :
  getitem view COL_CATEGORY = Ok [k] ->
  getitem view COL_AMOUNT = Ok [CNum a] ->
  isna k = false ->
  industry_rank view = Ok [(k, CNum ((a + 0) / inject_Z 1))].
Proof.
  intros Hc Hv Hk. unfold industry_rank. rewrite Hc, Hv. cbn [rbind].
  rewrite (group_keys_single k Hk). cbn [group_means group_values].
  rewrite cell_same_refl. reflexivity.
Qed.

Lemma mean_of_one (a : Q) : (a + 0) / inject_Z 1 == a.
Proof.
  unfold Qdiv. change (/ inject_Z 1) with 1.
  rewrite Qmult_1_r. apply Qplus_0_r.
Qed.

Lemma getitem_In_pair (df : DataFrame) (c : str) (vs : Series) :
  getitem df c = Ok vs -> In (c, vs) df.
Proof.
  induction df as [|[n ws] df IH]; simpl; [discriminate |].
  destruct (str_eqb n c) eqn:E; [| auto].
  apply str_eqb_eq in E. intros H. inversion H; subst. left. reflexivity.
Qed.

Lemma single_row_cell (view : DataFrame) (c : str) (vs : Series) :
  single_row view = true -> getitem view c = Ok vs -> exists x, vs = [x].
Proof.
  unfold single_row. rewrite andb_true_iff, forallb_forall. intros [_ H] G.
  apply getitem_In_pair in G. specialize (H _ G). simpl in H.
  apply Nat.eqb_eq in H. destruct vs as [|x [|y vs]]; try discriminate. eauto.
Qed.

Lemma single_numeric_cell (repr_num : Q -> str) (parse_num : str -> option Q)
  (csv df : DataFrame) (mask : list bool) (c : str) :
  preprocess repr_num parse_num csv = Ok df ->
  single_row (df_select mask df) = true ->
  In c (columns df) -> is_numeric_col c = true ->
  exists q, getitem (df_select mask df) c = Ok [CNum q].
Proof.
  intros L S Hin Hc.
  destruct (@view_column_numeric _ _ _ _ mask c L Hin Hc) as (vs & G & N).
  destruct (@single_row_cell _ _ _ S G) as [x ->].
  inversion N as [|? ? Hx _]; subst. destruct x as [s | q |]; try discriminate.
  eauto.
Qed.

(** C9 as stated fails: a file of one row whose category cell is empty
    loads, the view of its borough is that one row, and the ranking of the
    view is empty, of length 0. *)
Lemma C9_single_row_without_category :
  preprocess repr_whole parse_whole nameless_csv = Ok nameless_df
  /\ snd (filtered_view nameless_df default_user)
     = Ok (Some (CStr (lit "강남구")), df_select [true] nameless_df)
  /\ single_row (df_select [true] nameless_df) = true
  /\ getitem (df_select [true] nameless_df) COL_CATEGORY = Ok [CNaN]
  /\ industry_rank (df_select [true] nameless_df) = Ok []
  /\ first_entry (@nil (cell * cell)) = Raise IndexError.
Proof. repeat split; vm_compute; reflexivity. Qed.

Lemma single_row_spec (repr_num : Q -> str) (parse_num : str -> option Q)
  (csv df : DataFrame) (mask : list bool) (k : cell) :
  preprocess repr_num parse_num csv = Ok df ->
  single_row (df_select mask df) = true ->
  In COL_AMOUNT (columns df) ->
  In COL_MALE (columns df) ->
  In COL_FEMALE (columns df) ->
  age_cols df <> [] ->
  getitem (df_select mask df) COL_CATEGORY = Ok [k] ->
  isna k = false ->
  exists a male female totals before c m after,
    getitem (df_select mask df) COL_AMOUNT = Ok [CNum a] /\
    (exists mean, industry_rank (df_select mask df) = Ok [(k, CNum mean)]
                  /\ mean == a) /\
    getitem (df_select mask df) COL_MALE = Ok [CNum male] /\
    (exists s, series_sum [CNum male] = Ok s /\ s == male) /\
    getitem (df_select mask df) COL_FEMALE = Ok [CNum female] /\
    (exists s, series_sum [CNum female] = Ok s /\ s == female) /\
    column_sums (df_select mask df) (age_cols df) = Ok totals /\
    map fst totals = age_cols df /\
    Forall (fun cs => exists q,
                getitem (df_select mask df) (fst cs) = Ok [CNum q] /\
                snd cs == q) totals /\
    idxmax totals = Ok c /\
    totals = before ++ (c, m) :: after /\
    (forall y, In y before -> snd y < m) /\
    (forall y, In y after -> snd y <= m).
Proof.
  intros L S Ha Hm Hf Hage Hc Hk.
  destruct (@single_numeric_cell _ _ _ _ mask COL_AMOUNT L S Ha eq_refl) as [a Ga].
  destruct (@single_numeric_cell _ _ _ _ mask COL_MALE L S Hm eq_refl) as [male Gm].
  destruct (@single_numeric_cell _ _ _ _ mask COL_FEMALE L S Hf eq_refl)
    as [female Gf].
  destruct (@dominant_age_spec _ _ _ _ mask L Hage)
    as (totals & before & c & m & after & label & T1 & T2 & T3 & T4 & T5 & T6
        & T7 & _ & _).
  exists a, male, female, totals, before, c, m, after.
  split; [exact Ga |]. split.
  { exists ((a + 0) / inject_Z 1). split; [| apply mean_of_one].
    apply industry_rank_single; assumption. }
  split; [exact Gm |]. split.
  { exists (male + 0). split; [reflexivity | apply Qplus_0_r]. }
  split; [exact Gf |]. split.
  { exists (female + 0). split; [reflexivity | apply Qplus_0_r]. }
  split; [exact T1 |]. split; [exact T2 |]. split.
  { rewrite Forall_forall in T3 |- *. intros cs Hcs.
    destruct (T3 cs Hcs) as (vs & G & Hs).
    assert (Hin : In (fst cs) (age_cols df)).
    { rewrite <- T2. apply in_map. exact Hcs. }
    apply filter_In in Hin. destruct Hin as [Hin Hage'].
    destruct (@single_numeric_cell _ _ _ _ mask (fst cs) L S Hin
                (is_age_col_numeric _ Hage')) as [q Gq].
    exists q. split; [exact Gq |].
    rewrite Gq in G. inversion G; subst vs. simpl in Hs. inversion Hs.
    apply Qplus_0_r. }
  repeat split; assumption.
Qed.

(** C9 (amended). For every view of one row whose category cell holds a
    name, the ranking has exactly one entry, that category with the row's
    amount as its mean; each gender total is the row's cell of that gender;
    each age total is the row's cell of that age column, and the dominant
    bracket is the first column whose cell is the largest. *)
Theorem C9_single_row_view :
  forall (repr_num : Q -> str) (parse_num : str -> option Q)
         (csv df : DataFrame) (mask : list bool) (k : cell),
    preprocess repr_num parse_num csv = Ok df ->
    single_row (df_select mask df) = true ->
    In COL_AMOUNT (columns df) ->
    In COL_MALE (columns df) ->
    In COL_FEMALE (columns df) ->
    age_cols df <> [] ->
    getitem (df_select mask df) COL_CATEGORY = Ok [k] ->
    isna k = false ->
    exists a male female totals before c m after,
      getitem (df_select mask df) COL_AMOUNT = Ok [CNum a] /\
      (exists mean, industry_rank (df_select mask df) = Ok [(k, CNum mean)]
                    /\ mean == a) /\
      getitem (df_select mask df) COL_MALE = Ok [CNum male] /\
      (exists s, series_sum [CNum male] = Ok s /\ s == male) /\
      getitem (df_select mask df) COL_FEMALE = Ok [CNum female] /\
      (exists s, series_sum [CNum female] = Ok s /\ s == female) /\
      column_sums (df_select mask df) (age_cols df) = Ok totals /\
      map fst totals = age_cols df /\
      Forall (fun cs => exists q,
                  getitem (df_select mask df) (fst cs) = Ok [CNum q] /\
                  snd cs == q) totals /\
      idxmax totals = Ok c /\
      totals = before ++ (c, m) :: after /\
      (forall y, In y before -> snd y < m) /\
      (forall y, In y after -> snd y <= m).
Proof. exact single_row_spec. Qed.

Lemma C9_single_row_view_witness :
  exists a male female totals before c m after,
    getitem (df_select [false; true] two_df) COL_AMOUNT = Ok [CNum a] /\
    (exists mean,
        industry_rank (df_select [false; true] two_df)
        = Ok [(CStr (lit "B"), CNum mean)] /\ mean == a) /\
    getitem (df_select [false; true] two_df) COL_MALE = Ok [CNum male] /\
    (exists s, series_sum [CNum male] = Ok s /\ s == male) /\
    getitem (df_select [false; true] two_df) COL_FEMALE = Ok [CNum female] /\
    (exists s, series_sum [CNum female] = Ok s /\ s == female) /\
    column_sums (df_select [false; true] two_df) (age_cols two_df) = Ok totals /\
    map fst totals = age_cols two_df /\
    Forall (fun cs => exists q,
                getitem (df_select [false; true] two_df) (fst cs)
                = Ok [CNum q] /\
                snd cs == q) totals /\
    idxmax totals = Ok c /\
    totals = before ++ (c, m) :: after /\
    (forall y, In y before -> snd y < m) /\
    (forall y, In y after -> snd y <= m).
Proof.
  apply (@C9_single_row_view repr_whole parse_whole two_csv two_df
           [false; true] (CStr (lit "B"))).
  - vm_compute. reflexivity.
  - vm_compute. reflexivity.
  - vm_compute. tauto.
  - vm_compute. tauto.
  - vm_compute. tauto.
  - vm_compute. discriminate.
  - vm_compute. reflexivity.
  - reflexivity.
Defined.

(** ** The run of the script *)

Lemma dashboard_spec (repr_num : Q -> str) (parse_num : str -> option Q)
  (csv : DataFrame) (u : user) :
  dashboard repr_num parse_num (Some csv) u =
  match preprocess repr_num parse_num csv with
  | Raise e => ([Title], Raise e)
  | Ok df =>
    if df_empty df then ([Title; SidebarFooter], Ok tt)
    else
      match filtered_view df u with
      | (t, Raise e) => (Title :: t, Raise e)
      | (t, Ok (selected, view)) =>
        if df_empty view
        then (Title :: t ++ [NoDataWarning; SidebarFooter], Ok tt)
        else
          match summary df view selected u with
          | (t', Ok _) => (Title :: t ++ t' ++ [SidebarFooter], Ok tt)
          | (t', Raise e) => (Title :: t ++ t', Raise e)
          end
      end
  end.
Proof.
  unfold dashboard, load_data, bind, lift, emit, ret.
  destruct (preprocess repr_num parse_num csv) as [df | e]; [| reflexivity].
  simpl. destruct (df_empty df); [reflexivity |]. simpl.
  destruct (filtered_view df u) as [t [[selected view] | e]]; [| reflexivity].
  simpl. destruct (df_empty view).
  - rewrite <- app_assoc. reflexivity.
  - destruct (summary df view selected u) as [t' [[] | e]]; simpl;
      rewrite <- ?app_assoc; reflexivity.
Qed.

(** ** Lengths of columns *)

Lemma rectangular_getitem (df : DataFrame) (c : str) (vs : Series) :
  rectangular df = true -> getitem df c = Ok vs -> length vs = nrows df.
Proof.
  unfold rectangular. rewrite forallb_forall. intros H G.
  apply getitem_In_pair in G. specialize (H _ G). simpl in H.
  apply Nat.eqb_eq. exact H.
Qed.





Example demo_run :
  dashboard repr_whole parse_whole (Some demo_csv) default_user
  = ([Title; SidebarHeader;
      SelectDistrict [CStr (lit "강남구"); CStr (lit "서초구")] 0;
      SelectQuarter;
      Subheader (Some (CStr (lit "강남구"))) None;
      Metrics 200 (lit "10대") (CStr (lit "한식음식점"));
      AgeChart [lit "10대"; lit "20대"] [120 + 0; 80 + 0];
      GenderPie (150 + 0) (50 + 0);
      RankTable [(CStr (lit "한식음식점"), CNum ((200 + 0) / inject_Z 1))];
      RankChart [(CStr (lit "한식음식점"), CNum ((200 + 0) / inject_Z 1))];
      Insight (lit "10대") (CStr (lit "한식음식점")) 200;
      SidebarFooter], Ok tt).
Proof. vm_compute. reflexivity. Qed.


Lemma C6_numeric_columns_coerced_witness :
  getitem demo_df (lit "당월_매출_건수") = Ok [CNum 12; CNum 0; CNum 0]
  /\ getitem demo_df COL_CATEGORY
     = Ok [CStr (lit "한식음식점"); CStr (lit "커피-음료"); CStr (lit "한식음식점")].
Proof.
  pose proof (proj1 (C6_numeric_columns_coerced repr_whole parse_whole demo_csv))
    as H.
  destruct H as (_ & H & _). split.
  - refine (eq_trans (H (lit "당월_매출_건수") _) _);
      [vm_compute; discriminate | vm_compute; reflexivity].
  - refine (eq_trans (H COL_CATEGORY _) _);
      [vm_compute; discriminate | vm_compute; reflexivity].
Defined.


(* ================================================================== *)
(** * Further properties of the script *)
(* ================================================================== *)

(** ** The filter (lines 83-86) *)

Lemma mask_and_nth (a b : list bool) (i : nat) (x y : bool) :
  nth_error a i = Some x -> nth_error b i = Some y ->
  nth_error (mask_and a b) i = Some (x && y).
Proof.
  revert b i. induction a as [|p a IH]; intros [|q b] [|i]; simpl;
    try discriminate.
  - intros H1 H2. inversion H1; inversion H2; subst. reflexivity.
  - apply IH.
Qed.

Lemma view_mask_nth (labels quarters : Series) (selected : option cell)
  (q : option Z) (i : nat) (l c : cell) :
  nth_error labels i = Some l ->
  nth_error quarters i = Some c ->
  nth_error (view_mask labels quarters selected q) i
  = Some (match selected with
          | Some d => cell_eqb l d
          | None => false
          end
          && match q with
             | Some z => cell_eqb c (CNum (inject_Z z))
             | None => true
             end).
Proof.
  intros Hl Hc. destruct q as [z |]; unfold view_mask.
  - apply mask_and_nth.
    + unfold district_mask. rewrite nth_error_map, Hl. reflexivity.
    + unfold quarter_mask. rewrite nth_error_map, Hc. reflexivity.
  - rewrite andb_true_r. unfold district_mask.
    rewrite nth_error_map, Hl. reflexivity.
Qed.

(** X1. Whenever lines 75-86 hand a view to the emptiness test (nothing was
    raised on the way), the view is the frame restricted to a mask of rows,
    the same mask for every column; a row is kept exactly when its borough
    equals the selected one and, when a quarter is picked, its quarter equals
    that quarter. *)
Theorem X1_view_rows_exact :
  forall (df : DataFrame) (u : user) (t : list event)
         (selected : option cell) (view : DataFrame),
    filtered_view df u = (t, Ok (selected, view)) ->
    exists labels quarters mask,
      getitem df COL_DISTRICT = Ok labels /\
      getitem df COL_QUARTER = Ok quarters /\
      columns view = columns df /\
      (forall c, getitem view c =
                 match getitem df c with
                 | Ok vs => Ok (select mask vs)
                 | Raise e => Raise e
                 end) /\
      (forall i l c,
          nth_error labels i = Some l ->
          nth_error quarters i = Some c ->
          nth_error mask i
          = Some (match selected with
                  | Some d => cell_eqb l d
                  | None => false
                  end
                  && match pick_quarter u with
                     | Some z => cell_eqb c (CNum (inject_Z z))
                     | None => true
                     end)).
Proof.
  intros df u t selected view H. pose proof (filtered_view_spec df u) as P.
  rewrite H in P.
  destruct P as (labels & quarters & Hl & Hq & Hs & Hv & Ht).
  exists labels, quarters,
    (view_mask labels quarters selected (pick_quarter u)).
  split; [exact Hl |]. split; [exact Hq |]. split; [| split].
  - rewrite Hv. apply columns_df_select.
  - intros c. rewrite Hv. apply getitem_df_select.
  - intros i l c. apply view_mask_nth.
Qed.

Lemma X1_view_rows_exact_witness :
  exists labels quarters mask,
    getitem demo_df COL_DISTRICT = Ok labels /\
    getitem demo_df COL_QUARTER = Ok quarters /\
    columns (df_select [false; false; true] demo_df) = columns demo_df /\
    (forall c, getitem (df_select [false; false; true] demo_df) c =
               match getitem demo_df c with
               | Ok vs => Ok (select mask vs)
               | Raise e => Raise e
               end) /\
    (forall i l c,
        nth_error labels i = Some l ->
        nth_error quarters i = Some c ->
        nth_error mask i
        = Some (match Some (CStr GANGNAM) with
                | Some d => cell_eqb l d
                | None => false
                end
                && match pick_quarter default_user with
                   | Some z => cell_eqb c (CNum (inject_Z z))
                   | None => true
                   end)).
Proof.
  apply (@X1_view_rows_exact demo_df default_user
           [SidebarHeader;
            SelectDistrict [CStr (lit "강남구"); CStr (lit "서초구")] 0;
            SelectQuarter]
           (Some (CStr GANGNAM)) (df_select [false; false; true] demo_df)).
  vm_compute. reflexivity.
Defined.

(** ** The order of the options (line 75) *)

Lemma str_leb_total (a b : str) : str_leb a b = true \/ str_leb b a = true.
Proof.
  revert b. induction a as [|x a IH]; intros [|y b]; simpl; auto.
  destruct (N.ltb_spec x y), (N.ltb_spec y x); auto; try lia.
Qed.

Lemma str_leb_trans (a b c : str) :
  str_leb a b = true -> str_leb b c = true -> str_leb a c = true.
Proof.
  revert b c. induction a as [|x a IH]; intros [|y b] [|z c]; simpl;
    try discriminate; try reflexivity.
  destruct (N.ltb_spec x y), (N.ltb_spec y x), (N.ltb_spec y z),
    (N.ltb_spec z y), (N.ltb_spec x z), (N.ltb_spec z x);
    try discriminate; try reflexivity; try lia.
  apply IH.
Qed.

Lemma cell_leb_total (a b : cell) : cell_leb a b = true \/ cell_leb b a = true.
Proof.
  destruct a as [s | x |], b as [t | y |]; simpl; auto.
  - apply str_leb_total.
  - destruct (Qlt_le_dec x y) as [H | H].
    + left. apply Qle_bool_iff, Qlt_le_weak. exact H.
    + right. apply Qle_bool_iff. exact H.
Qed.

Lemma cell_leb_trans (a b c : cell) :
  cell_leb a b = true -> cell_leb b c = true -> cell_leb a c = true.
Proof.
  destruct a as [s | x |], b as [t | y |], c as [r | z |]; simpl;
    try discriminate; try reflexivity.
  - apply str_leb_trans.
  - rewrite !Qle_bool_iff. intros H1 H2. eapply Qle_trans; eauto.
Qed.

Lemma filter_filter_length {A} (f g : A -> bool) (l : list A) :
  (length (filter f (filter g l)) <= length (filter f l))%nat.
Proof.
  induction l as [|x l IH]; simpl; [lia |].
  destruct (g x); simpl; destruct (f x); simpl; lia.
Qed.

(** ** The preselected borough (line 76) *)

Lemma cell_eqb_to_CStr (y : cell) (s : str) :
  cell_eqb y (CStr s) = true -> y = CStr s.
Proof.
  destruct y as [t | |]; simpl; try discriminate.
  intros H. apply str_eqb_eq in H. subst. reflexivity.
Qed.

Lemma index_of_nth (x : cell) (l : list cell) :
  existsb (fun d => cell_eqb d x) l = true ->
  exists y, nth_error l (index_of x l) = Some y /\ cell_eqb y x = true.
Proof.
  induction l as [|y l IH]; simpl; [discriminate |].
  destruct (cell_eqb y x) eqn:E; simpl; [eauto | exact IH].
Qed.

Lemma existsb_CStr_In (s : str) (l : list cell) :
  existsb (fun d => cell_eqb d (CStr s)) l = true <-> In (CStr s) l.
Proof.
  rewrite existsb_exists. split.
  - intros [y [Hy E]]. apply cell_eqb_to_CStr in E. subst. exact Hy.
  - intros H. exists (CStr s). split; [exact H |]. simpl. apply str_eqb_refl.
Qed.

(** X2. The borough box always returns one of its options, and [None]
    only when it has none.  Left alone it returns "강남구" when that is an
    option and the first option otherwise; a pick outside the options falls
    back to the same preselected one. *)
Theorem X2_preselected_borough :
  forall (options : list cell),
    (In (CStr GANGNAM) options ->
     selectbox options (default_index options) None = Some (CStr GANGNAM))
    /\ (~ In (CStr GANGNAM) options ->
        selectbox options (default_index options) None = hd_error options)
    /\ (forall pick d,
           selectbox options (default_index options) pick = Some d ->
           In d options)
    /\ (forall pick,
           selectbox options (default_index options) pick = None <->
           options = [])
    /\ (forall i o, nth_error options i = Some o ->
           selectbox options (default_index options) (Some i) = Some o)
    /\ (forall i, nth_error options i = None ->
           selectbox options (default_index options) (Some i)
           = selectbox options (default_index options) None).
Proof.
  intros options.
  assert (Hin : In (CStr GANGNAM) options ->
                nth_error options (default_index options) = Some (CStr GANGNAM)).
  { intros H. unfold default_index.
    pose proof (proj2 (existsb_CStr_In GANGNAM options) H) as E. rewrite E.
    destruct (index_of_nth _ _ E) as (y & Hy & Ey).
    apply cell_eqb_to_CStr in Ey. subst. exact Hy. }
  assert (Hout : ~ In (CStr GANGNAM) options ->
                 nth_error options (default_index options) = hd_error options).
  { intros H. unfold default_index.
    destruct (existsb _ options) eqn:E.
    - apply existsb_CStr_In in E. contradiction.
    - destruct options; reflexivity. }
  assert (Hnone : nth_error options (default_index options) = None <->
                  options = []).
  { split; [| intros ->; reflexivity].
    destruct (existsb (fun d => cell_eqb d (CStr GANGNAM)) options) eqn:E.
    - apply existsb_CStr_In in E. rewrite (Hin E). discriminate.
    - assert (n : ~ In (CStr GANGNAM) options).
      { intros H. apply existsb_CStr_In in H. congruence. }
      rewrite (Hout n). destruct options; [reflexivity | discriminate]. }
  split; [exact Hin |]. split; [exact Hout |]. split; [| split; [| split]].
  - intros pick d. apply selectbox_In.
  - intros pick. unfold selectbox. destruct pick as [i |]; [| exact Hnone].
    destruct (nth_error options i) eqn:E; [| exact Hnone].
    split; [discriminate | intros ->; destruct i; discriminate].
  - intros i o H. unfold selectbox. rewrite H. reflexivity.
  - intros i H. unfold selectbox. rewrite H. reflexivity.
Qed.

(** ** The options of the borough box (lines 57 and 75) *)

Lemma loaded_labels (repr_num : Q -> str) (parse_num : str -> option Q)
  (csv df : DataFrame) :
  preprocess repr_num parse_num csv = Ok df ->
  exists names,
    getitem csv COL_AREA = Ok names /\
    getitem df COL_DISTRICT
    = Ok (map (fun name => CStr (match_district repr_num name)) names).
Proof.
  intros L. pose proof (preprocess_spec repr_num parse_num csv) as P.
  rewrite L in P. destruct P as (names & Hn & _ & Hg).
  exists names. split; [exact Hn |].
  rewrite Hg. unfold with_districts. rewrite getitem_setitem, str_eqb_refl.
  reflexivity.
Qed.

Lemma once_NoDup (l : list cell) :
  (forall k, (length (filter (cell_same k) l) <= 1)%nat) -> NoDup l.
Proof.
  induction l as [|x l IH]; intros H; constructor.
  - intros Hin. specialize (H x). simpl in H. rewrite cell_same_refl in H.
    simpl in H.
    assert (Hpos : (1 <= length (filter (cell_same x) l))%nat).
    { clear -Hin. induction l as [|y l IH]; [destruct Hin |]. simpl.
      destruct Hin as [-> | Hin].
      - rewrite cell_same_refl. simpl. lia.
      - destruct (cell_same x y); simpl; [lia | auto]. }
    lia.
  - apply IH. intros k. specialize (H k). simpl in H.
    destruct (cell_same k x); simpl in H; lia.
Qed.

Lemma districts_of_once (labels : Series) (k : cell) :
  (length (filter (cell_same k) (districts_of labels)) <= 1)%nat.
Proof.
  unfold districts_of.
  rewrite (filter_length_perm _ (sort_by_perm cell_leb _)).
  eapply Nat.le_trans; [apply filter_filter_length | apply unique_once].
Qed.

Lemma unique_In_CStr (vs : Series) (s : str) :
  In (CStr s) vs -> In (CStr s) (unique vs).
Proof.
  intros H. destruct (unique_complete vs (CStr s) H) as (k & Hk & Hs).
  unfold cell_same in Hs. rewrite andb_false_r, orb_false_r in Hs.
  apply cell_eqb_to_CStr in Hs. subst. exact Hk.
Qed.

Lemma borough_options_spec (repr_num : Q -> str) (parse_num : str -> option Q)
  (csv df : DataFrame) :
  preprocess repr_num parse_num csv = Ok df ->
  exists labels,
    getitem df COL_DISTRICT = Ok labels /\
    StronglySorted (holds cell_leb) (districts_of labels) /\
    NoDup (districts_of labels) /\
    (forall d, In d (districts_of labels) <->
               In d labels /\ d <> CStr UNCLASSIFIED) /\
    (forall d, In d (districts_of labels) ->
               exists kw s, d = CStr s /\ In (kw, s) KEYWORD_TO_DISTRICT).
Proof.
  intros L. destruct (@loaded_labels _ _ _ _ L) as (names & _ & Hl).
  eexists. split; [exact Hl |].
  set (labels := map (fun name => CStr (match_district repr_num name)) names).
  assert (Hmem : forall d, In d (districts_of labels) <->
                           In d labels /\ d <> CStr UNCLASSIFIED).
  { intros d. unfold districts_of. rewrite sort_by_In, filter_In. split.
    - intros [H1 H2]. split; [apply unique_In; exact H1 |].
      intros ->. cbn [cell_eqb] in H2. rewrite str_eqb_refl in H2.
      discriminate.
    - intros [H1 H2].
      assert (Hd : exists s, d = CStr s).
      { apply in_map_iff in H1. destruct H1 as (n & <- & _). eauto. }
      destruct Hd as [s ->]. split; [apply unique_In_CStr; exact H1 |].
      apply negb_true_iff. cbn [cell_eqb].
      destruct (str_eqb s UNCLASSIFIED) eqn:E;
        [| reflexivity].
      apply str_eqb_eq in E. subst. congruence. }
  split; [| split; [| split; [exact Hmem |]]].
  - apply sort_by_sorted; [apply cell_leb_total | apply cell_leb_trans].
  - apply once_NoDup. apply districts_of_once.
  - intros d Hd. apply Hmem in Hd. destruct Hd as [H1 H2].
    apply in_map_iff in H1. destruct H1 as (n & <- & _).
    unfold match_district in *.
    destruct (scan_keywords_range KEYWORD_TO_DISTRICT (py_str repr_num n))
      as [H | [kw [H _]]]; [rewrite H in H2; congruence | eauto].
Qed.

(** X3. The options of the borough box of a loaded frame are the borough
    labels of its rows other than "기타/미분류", each once, in ascending
    order of code points; every option is a borough of the keyword table. *)
Theorem X3_borough_options :
  forall (repr_num : Q -> str) (parse_num : str -> option Q)
         (csv df : DataFrame),
    preprocess repr_num parse_num csv = Ok df ->
    exists labels,
      getitem df COL_DISTRICT = Ok labels /\
      StronglySorted (holds cell_leb) (districts_of labels) /\
      NoDup (districts_of labels) /\
      (forall d, In d (districts_of labels) <->
                 In d labels /\ d <> CStr UNCLASSIFIED) /\
      (forall d, In d (districts_of labels) ->
                 exists kw s, d = CStr s /\ In (kw, s) KEYWORD_TO_DISTRICT).
Proof. exact borough_options_spec. Qed.

Lemma X3_borough_options_witness :
  exists labels,
    getitem demo_df COL_DISTRICT = Ok labels /\
    StronglySorted (holds cell_leb) (districts_of labels) /\
    NoDup (districts_of labels) /\
    (forall d, In d (districts_of labels) <->
               In d labels /\ d <> CStr UNCLASSIFIED) /\
    (forall d, In d (districts_of labels) ->
               exists kw s, d = CStr s /\ In (kw, s) KEYWORD_TO_DISTRICT).
Proof.
  apply (@X3_borough_options repr_whole parse_whole demo_csv demo_df).
  vm_compute. reflexivity.
Defined.

(** ** The shape of a loaded frame *)

Lemma loaded_columns (repr_num : Q -> str) (parse_num : str -> option Q)
  (csv df : DataFrame) :
  preprocess repr_num parse_num csv = Ok df ->
  forall c, In c (columns df) <-> In c (columns csv) \/ c = COL_DISTRICT.
Proof.
  intros L c. pose proof (preprocess_spec repr_num parse_num csv) as P.
  rewrite L in P. destruct P as (names & _ & Hc & _).
  rewrite Hc. unfold with_districts.
  destruct (existsb (str_eqb COL_DISTRICT) (columns csv)) eqn:E.
  - apply existsb_str_eqb in E. rewrite columns_setitem_present by exact E.
    split; [tauto | intros [H | ->]; assumption].
  - assert (n : ~ In COL_DISTRICT (columns csv)).
    { intros H. apply existsb_str_eqb in H. congruence. }
    rewrite columns_setitem_absent by exact n.
    rewrite in_app_iff. simpl. split; [intros [H | [H | []]]; auto |].
    intros [H | H]; auto.
Qed.

Lemma loaded_column_length (repr_num : Q -> str) (parse_num : str -> option Q)
  (csv df : DataFrame) (c : str) (vs : Series) :
  preprocess repr_num parse_num csv = Ok df ->
  rectangular csv = true ->
  getitem df c = Ok vs -> length vs = nrows csv.
Proof.
  intros L R G.
  pose proof (preprocess_spec repr_num parse_num csv) as P. rewrite L in P.
  destruct P as (names & Hn & _ & Hg). rewrite Hg in G.
  unfold with_districts in G. rewrite getitem_setitem in G.
  destruct (str_eqb COL_DISTRICT c).
  - inversion G; subst.
    destruct (is_numeric_col c); rewrite ?coerce_length, length_map;
      eapply rectangular_getitem; eauto.
  - destruct (getitem csv c) as [ws | e] eqn:E; [| discriminate].
    inversion G; subst.
    destruct (is_numeric_col c); rewrite ?coerce_length;
      eapply rectangular_getitem; eauto.
Qed.

Lemma loaded_nrows (repr_num : Q -> str) (parse_num : str -> option Q)
  (csv df : DataFrame) :
  preprocess repr_num parse_num csv = Ok df ->
  rectangular csv = true ->
  df <> [] /\ nrows df = nrows csv.
Proof.
  intros L R.
  assert (Hne : df <> []).
  { intros ->. pose proof (@loaded_columns _ _ _ _ L COL_DISTRICT) as H.
    simpl in H. tauto. }
  split; [exact Hne |].
  destruct df as [|[c vs] df]; [congruence |]. simpl.
  apply (@loaded_column_length _ _ _ _ c vs L R).
  simpl. rewrite str_eqb_refl. reflexivity.
Qed.

Lemma setitem_all_length (n : nat) (df : DataFrame) (c : str) (vs : Series) :
  all_length n df = true -> length vs = n ->
  all_length n (setitem df c vs) = true.
Proof.
  intros H Hv. induction df as [|[c' ws] df IH]; simpl in *.
  - rewrite Hv, Nat.eqb_refl. reflexivity.
  - apply andb_true_iff in H. destruct H as [H1 H2].
    destruct (str_eqb c' c); simpl.
    + rewrite Hv, Nat.eqb_refl, H2. reflexivity.
    + rewrite H1, (IH H2). reflexivity.
Qed.

Lemma all_length_getitem (n : nat) (df : DataFrame) (c : str) (vs : Series) :
  all_length n df = true -> getitem df c = Ok vs -> length vs = n.
Proof.
  unfold all_length. rewrite forallb_forall. intros H G.
  apply getitem_In_pair in G. specialize (H _ G). apply Nat.eqb_eq. exact H.
Qed.

Lemma coerce_columns_all_length (parse_num : str -> option Q) (n : nat)
  (cols : list str) : forall df df' : DataFrame,
  all_length n df = true ->
  coerce_columns parse_num cols df = Ok df' ->
  all_length n df' = true.
Proof.
  induction cols as [|col rest IH]; intros df df' H C; simpl in C.
  - inversion C; subst. exact H.
  - destruct (getitem df col) as [vs | e] eqn:G; [| discriminate].
    simpl in C. eapply IH; [| exact C].
    apply setitem_all_length; [exact H |].
    rewrite coerce_length. eapply all_length_getitem; eauto.
Qed.

Lemma loaded_shape (repr_num : Q -> str) (parse_num : str -> option Q)
  (csv df : DataFrame) :
  preprocess repr_num parse_num csv = Ok df ->
  rectangular csv = true ->
  rectangular df = true
  /\ nrows df = nrows csv
  /\ columns df = (if existsb (str_eqb COL_DISTRICT) (columns csv)
                   then columns csv
                   else columns csv ++ [COL_DISTRICT]).
Proof.
  intros L R. destruct (@loaded_nrows _ _ _ _ L R) as [_ Hn].
  split; [| split; [exact Hn |]].
  - unfold rectangular. rewrite Hn. fold (all_length (nrows csv) df).
    unfold preprocess in L.
    destruct (getitem csv COL_AREA) as [names |] eqn:G; [| discriminate].
    simpl in L. eapply coerce_columns_all_length; [| exact L].
    apply setitem_all_length; [exact R |].
    rewrite length_map. eapply rectangular_getitem; eauto.
  - pose proof (preprocess_spec repr_num parse_num csv) as P. rewrite L in P.
    destruct P as (names & _ & Hc & _). rewrite Hc. unfold with_districts.
    destruct (existsb (str_eqb COL_DISTRICT) (columns csv)) eqn:E.
    + apply columns_setitem_present, existsb_str_eqb. exact E.
    + apply columns_setitem_absent. intros H.
      apply existsb_str_eqb in H. congruence.
Qed.

(** X4. Loading keeps the table rectangular and drops no row: every column
    of the loaded frame has as many cells as the file has rows.  The columns
    keep their names and order, and the borough column is appended as the
    last one unless the file already has a column of that name, which is
    then replaced in place. *)
Theorem X4_loaded_shape :
  forall (repr_num : Q -> str) (parse_num : str -> option Q)
         (csv df : DataFrame),
    preprocess repr_num parse_num csv = Ok df ->
    rectangular csv = true ->
    rectangular df = true
    /\ nrows df = nrows csv
    /\ columns df = (if existsb (str_eqb COL_DISTRICT) (columns csv)
                     then columns csv
                     else columns csv ++ [COL_DISTRICT]).
Proof. exact loaded_shape. Qed.

Lemma X4_loaded_shape_witness :
  rectangular demo_df = true
  /\ nrows demo_df = nrows demo_csv
  /\ columns demo_df = (if existsb (str_eqb COL_DISTRICT) (columns demo_csv)
                        then columns demo_csv
                        else columns demo_csv ++ [COL_DISTRICT]).
Proof.
  apply (@X4_loaded_shape repr_whole parse_whole demo_csv demo_df).
  - vm_compute. reflexivity.
  - vm_compute. reflexivity.
Defined.

(** ** Files the script cannot summarise *)

Lemma preprocess_ok (repr_num : Q -> str) (parse_num : str -> option Q)
  (csv : DataFrame) :
  In COL_AREA (columns csv) ->
  exists df, preprocess repr_num parse_num csv = Ok df.
Proof.
  intros H. pose proof (preprocess_spec repr_num parse_num csv) as P.
  destruct (preprocess repr_num parse_num csv) as [df | e]; [eauto |].
  apply getitem_In in H. destruct H as [vs H]. congruence.
Qed.

(** X5. A file that has its area-name column and no data row gives a page
    with the title and the footer only: no error, no warning, no select
    box. *)
Theorem X5_no_data_rows :
  forall (repr_num : Q -> str) (parse_num : str -> option Q)
         (csv : DataFrame) (u : user),
    In COL_AREA (columns csv) ->
    rectangular csv = true ->
    nrows csv = 0%nat ->
    dashboard repr_num parse_num (Some csv) u
    = ([Title; SidebarFooter], Ok tt).
Proof.
  intros repr_num parse_num csv u Ha R Hz.
  destruct (preprocess_ok repr_num parse_num csv Ha) as [df L].
  rewrite dashboard_spec, L.
  destruct (@loaded_nrows _ _ _ _ L R) as [Hne Hn].
  unfold df_empty. destruct df; [congruence |].
  rewrite Hn, Hz. reflexivity.
Qed.

Lemma X5_no_data_rows_witness :
  dashboard repr_whole parse_whole (Some header_only_csv) default_user
  = ([Title; SidebarFooter], Ok tt).
Proof.
  apply X5_no_data_rows.
  - vm_compute. tauto.
  - vm_compute. reflexivity.
  - vm_compute. reflexivity.
Defined.

(** X6. A file without the area-name column ends the run with [KeyError]
    for that column as soon as it is loaded: only the title is shown. *)
Theorem X6_missing_area_column :
  forall (repr_num : Q -> str) (parse_num : str -> option Q)
         (csv : DataFrame) (u : user),
    ~ In COL_AREA (columns csv) ->
    dashboard repr_num parse_num (Some csv) u
    = ([Title], Raise (KeyError COL_AREA)).
Proof.
  intros repr_num parse_num csv u Ha. rewrite dashboard_spec.
  pose proof (preprocess_spec repr_num parse_num csv) as P.
  destruct (preprocess repr_num parse_num csv) as [df | e].
  - destruct P as (names & Hn & _). exfalso. apply Ha, getitem_In. eauto.
  - apply getitem_Raise in P. destruct P as [-> _]. reflexivity.
Qed.

Lemma X6_missing_area_column_witness :
  dashboard repr_whole parse_whole (Some no_area_csv) default_user
  = ([Title], Raise (KeyError COL_AREA)).
Proof.
  apply X6_missing_area_column.
  vm_compute. intuition discriminate.
Defined.

(** X7. A file with data rows and without the quarter column ends the run
    with [KeyError] for that column after the borough box has been shown:
    no quarter box, no warning, no summary, no footer. *)
Theorem X7_missing_quarter_column :
  forall (repr_num : Q -> str) (parse_num : str -> option Q)
         (csv : DataFrame) (u : user),
    In COL_AREA (columns csv) ->
    rectangular csv = true ->
    nrows csv <> 0%nat ->
    ~ In COL_QUARTER (columns csv) ->
    exists df labels,
      preprocess repr_num parse_num csv = Ok df /\
      getitem df COL_DISTRICT = Ok labels /\
      dashboard repr_num parse_num (Some csv) u
      = ([Title; SidebarHeader;
          SelectDistrict (districts_of labels)
            (default_index (districts_of labels))],
         Raise (KeyError COL_QUARTER)).
Proof.
  intros repr_num parse_num csv u Ha R Hz Hq.
  destruct (preprocess_ok repr_num parse_num csv Ha) as [df L].
  destruct (@loaded_labels _ _ _ _ L) as (names & _ & Hl).
  exists df. eexists. split; [exact L |]. split; [exact Hl |].
  rewrite dashboard_spec, L.
  destruct (@loaded_nrows _ _ _ _ L R) as [Hne Hn].
  assert (He : df_empty df = false).
  { unfold df_empty. destruct df; [congruence |]. rewrite Hn.
    apply Nat.eqb_neq. exact Hz. }
  rewrite He.
  assert (Gq : getitem df COL_QUARTER = Raise (KeyError COL_QUARTER)).
  { destruct (getitem df COL_QUARTER) as [vs | e] eqn:G.
    - exfalso. apply Hq.
      assert (H : In COL_QUARTER (columns df)) by (apply getitem_In; eauto).
      apply (@loaded_columns _ _ _ _ L) in H.
      destruct H as [H | H]; [exact H | discriminate].
    - apply getitem_Raise in G. destruct G as [-> _]. reflexivity. }
  unfold filtered_view, bind, lift, emit, ret. rewrite Hl, Gq. reflexivity.
Qed.

Lemma X7_missing_quarter_column_witness :
  exists df labels,
    preprocess repr_whole parse_whole no_quarter_csv = Ok df /\
    getitem df COL_DISTRICT = Ok labels /\
    dashboard repr_whole parse_whole (Some no_quarter_csv) default_user
    = ([Title; SidebarHeader;
        SelectDistrict (districts_of labels)
          (default_index (districts_of labels))],
       Raise (KeyError COL_QUARTER)).
Proof.
  apply X7_missing_quarter_column.
  - vm_compute. tauto.
  - vm_compute. reflexivity.
  - vm_compute. discriminate.
  - vm_compute. intuition discriminate.
Defined.

(** ** A file with no classified row *)








(** ** What a summary shows *)

Lemma age_labels_spec (cols : list str) (labels : list str) :
  age_labels cols = Ok labels ->
  Forall2 (fun c l => age_label c = Ok l) cols labels.
Proof.
  revert labels. induction cols as [|c cols IH]; intros labels H; simpl in H.
  - inversion H. constructor.
  - destruct (age_label c) as [l |] eqn:E; [| discriminate]. simpl in H.
    destruct (age_labels cols) as [ls |]; [| discriminate]. simpl in H.
    inversion H; subst. constructor; [exact E | apply IH; reflexivity].
Qed.

Lemma Forall2_In_left {A B} (R : A -> B -> Prop) (l : list A) (l' : list B)
  (x : A) :
  Forall2 R l l' -> In x l -> exists y, In y l' /\ R x y.
Proof.
  induction 1 as [|a b l l' Hab H IH]; [intros [] |].
  intros [<- | Hin]; [exists b; split; [left; reflexivity | exact Hab] |].
  destruct (IH Hin) as (y & Hy & Hr). exists y. split; [right |]; assumption.
Qed.

Lemma column_sums_fst (view : DataFrame) (cols : list str)
  (totals : list (str * Q)) :
  column_sums view cols = Ok totals -> map fst totals = cols.
Proof.
  revert totals. induction cols as [|c cols IH]; intros totals H; simpl in H.
  - inversion H. reflexivity.
  - destruct (getitem view c); [| discriminate]. simpl in H.
    destruct (series_sum a); [| discriminate]. simpl in H.
    destruct (column_sums view cols); [| discriminate]. simpl in H.
    inversion H; subst. simpl. rewrite (IH _ eq_refl). reflexivity.
Qed.

Lemma idxmax_In (totals : list (str * Q)) (c : str) :
  idxmax totals = Ok c -> In c (map fst totals).
Proof.
  intros H. assert (Hne : totals <> []) by (intros ->; discriminate).
  destruct (idxmax_spec Hne) as (before & c' & m & after & I1 & I2 & _).
  rewrite H in I1. inversion I1; subst c'. rewrite I2, map_app.
  apply in_or_app. right. left. reflexivity.
Qed.

(** What a summary that raises nothing has shown. *)
Lemma summary_shape (df view : DataFrame) (selected : option cell) (u : user)
  (t : list event) :
  summary df view selected u = (t, Ok tt) ->
  exists totals c label rank top labels total male female value,
    column_sums view (age_cols df) = Ok totals /\
    idxmax totals = Ok c /\
    age_label c = Ok label /\
    industry_rank view = Ok rank /\
    first_entry rank = Ok top /\
    age_labels (age_cols df) = Ok labels /\
    t = [Subheader selected (pick_quarter u);
         Metrics total label (fst top);
         AgeChart labels (map snd totals);
         GenderPie male female;
         RankTable (firstn 10 rank);
         RankChart (firstn 10 rank);
         Insight label (fst top) value].
Proof.
  unfold summary, bind, lift, emit. intros H.
  destruct (column_sums view (age_cols df)) as [totals |] eqn:E1; simpl in H;
    [| discriminate].
  destruct (idxmax totals) as [c |] eqn:E2; simpl in H; [| discriminate].
  destruct (age_label c) as [label |] eqn:E3; simpl in H; [| discriminate].
  destruct (industry_rank view) as [rank |] eqn:E4; simpl in H;
    [| discriminate].
  destruct (first_entry rank) as [top |] eqn:E5; simpl in H; [| discriminate].
  destruct (getitem view COL_AMOUNT) as [vals |]; simpl in H; [| discriminate].
  destruct (series_sum vals) as [total |]; simpl in H; [| discriminate].
  destruct (age_labels (age_cols df)) as [labels |] eqn:E6; simpl in H;
    [| discriminate].
  destruct (getitem view COL_MALE) as [males |]; simpl in H; [| discriminate].
  destruct (series_sum males) as [male |]; simpl in H; [| discriminate].
  destruct (getitem view COL_FEMALE) as [females |]; simpl in H;
    [| discriminate].
  destruct (series_sum females) as [female |]; simpl in H; [| discriminate].
  destruct (py_int (snd top)) as [value |]; simpl in H; [| discriminate].
  inversion H.
  exists totals, c, label, rank, top, labels,
    (Z.quot (Qnum total) (Zpos (Qden total))), male, female, value.
  repeat split; first [assumption | reflexivity].
Qed.

(** X9. A summary that raises nothing has shown, in this order: the
    subheader, the metrics, the age chart, the gender pie, the ranking table,
    the ranking chart and the insight.  The category named in the metrics
    and in the insight is the first entry of the ranking and the first row of
    the table; the table and the chart hold the same rows, the first ten of
    the ranking at most; the age label of the metrics is the one of the
    insight and one of the labels of the age chart, which has one label and
    one value per age column of the file.  Nothing is said of the numbers
    shown. *)
Theorem X9_summary_shown :
  forall (df view : DataFrame) (selected : option cell) (u : user)
         (t : list event),
    summary df view selected u = (t, Ok tt) ->
    exists label rank top labels values total male female value,
      industry_rank view = Ok rank /\
      t = [Subheader selected (pick_quarter u);
           Metrics total label (fst top);
           AgeChart labels values;
           GenderPie male female;
           RankTable (firstn 10 rank);
           RankChart (firstn 10 rank);
           Insight label (fst top) value] /\
      hd_error rank = Some top /\
      hd_error (firstn 10 rank) = Some top /\
      (length (firstn 10 rank) <= 10)%nat /\
      In label labels /\
      length labels = length (age_cols df) /\
      length values = length (age_cols df).
Proof.
  intros df view selected u t H.
  destruct (summary_shape _ _ _ _ H)
    as (totals & c & label & rank & top & labels & total & male & female
        & value & T1 & T4 & Tl & R1 & R2 & Hl & Ht).
  exists label, rank, top, labels, (map snd totals), total, male, female,
    value.
  pose proof (column_sums_fst _ _ T1) as T2.
  pose proof (age_labels_spec _ Hl) as F.
  split; [exact R1 |]. split; [exact Ht |].
  destruct rank as [|e tl]; [discriminate |]. simpl in R2. inversion R2; subst e.
  split; [reflexivity |]. split; [reflexivity |]. split.
  { apply firstn_le_length. }
  split.
  { assert (Hc : In c (age_cols df)).
    { rewrite <- T2. apply idxmax_In. exact T4. }
    destruct (@Forall2_In_left _ _ _ _ _ _ F Hc) as (l & Hin & Hr).
    rewrite Tl in Hr. inversion Hr; subst. exact Hin. }
  split.
  { symmetry. eapply Forall2_length. exact F. }
  rewrite length_map, <- T2, length_map. reflexivity.
Qed.

Lemma X9_summary_shown_witness :
  exists label rank top labels values total male female value,
    industry_rank (df_select [false; false; true] demo_df) = Ok rank /\
    [Subheader (Some (CStr GANGNAM)) None;
     Metrics 200 (lit "10대") (CStr (lit "한식음식점"));
     AgeChart [lit "10대"; lit "20대"] [120 + 0; 80 + 0];
     GenderPie (150 + 0) (50 + 0);
     RankTable [(CStr (lit "한식음식점"), CNum ((200 + 0) / inject_Z 1))];
     RankChart [(CStr (lit "한식음식점"), CNum ((200 + 0) / inject_Z 1))];
     Insight (lit "10대") (CStr (lit "한식음식점")) 200]
    = [Subheader (Some (CStr GANGNAM)) (pick_quarter default_user);
       Metrics total label (fst top);
       AgeChart labels values;
       GenderPie male female;
       RankTable (firstn 10 rank);
       RankChart (firstn 10 rank);
       Insight label (fst top) value] /\
    hd_error rank = Some top /\
    hd_error (firstn 10 rank) = Some top /\
    (length (firstn 10 rank) <= 10)%nat /\
    In label labels /\
    length labels = length (age_cols demo_df) /\
    length values = length (age_cols demo_df).
Proof.
  apply (@X9_summary_shown demo_df (df_select [false; false; true] demo_df)
           (Some (CStr GANGNAM)) default_user).
  vm_compute. reflexivity.
Defined.

(** ** When a summary cannot complete *)

Lemma group_keys_all_missing (cats : Series) :
  existsb (fun c => negb (isna c)) cats = false -> group_keys cats = [].
Proof.
  intros H. unfold group_keys.
  replace (filter (fun c => negb (isna c)) cats) with (@nil cell);
    [reflexivity |].
  symmetry. induction cats as [|c cats IH]; simpl in *; [reflexivity |].
  apply orb_false_iff in H. destruct H as [H1 H2]. rewrite H1. auto.
Qed.

Lemma ranking_without_category (view : DataFrame) (rank : list (cell * cell)) :
  has_category view = false ->
  industry_rank view = Ok rank -> rank = [].
Proof.
  unfold has_category, industry_rank. intros Hcat H.
  destruct (getitem view COL_CATEGORY) as [cats |]; [| discriminate].
  simpl in H. destruct (getitem view COL_AMOUNT) as [vals |]; [| discriminate].
  simpl in H. rewrite (group_keys_all_missing _ Hcat) in H. simpl in H.
  inversion H. reflexivity.
Qed.

(** X10. A summary completes only on a view in which some row has a
    category name: when no row has one (or the view has no category column)
    the ranking, if it is computed at all, is empty, and the summary ends
    with an exception. *)
Theorem X10_summary_outcome :
  forall (df view : DataFrame) (selected : option cell) (u : user),
    has_category view = false ->
    (forall rank, industry_rank view = Ok rank ->
                  rank = [] /\ first_entry rank = Raise IndexError)
    /\ exists e, snd (summary df view selected u) = Raise e.
Proof.
  intros df view selected u Hcat. split.
  - intros rank H. rewrite (ranking_without_category _ Hcat H). auto.
  - destruct (summary df view selected u) as [t [[] | e]] eqn:S;
      [| exists e; reflexivity].
    exfalso. destruct (summary_shape _ _ _ _ S)
      as (totals & c & label & rank & top & _ & _ & _ & _ & _ & _ & _ & _
          & R1 & R2 & _).
    rewrite (ranking_without_category _ Hcat R1) in R2. discriminate.
Qed.

Lemma X10_summary_outcome_witness :
  (forall rank,
      industry_rank (df_select [true] nameless_df) = Ok rank ->
      rank = [] /\ first_entry rank = Raise IndexError)
  /\ exists e,
       snd (summary nameless_df (df_select [true] nameless_df)
              (Some (CStr GANGNAM)) default_user) = Raise e.
Proof.
  apply (@X10_summary_outcome nameless_df (df_select [true] nameless_df)
           (Some (CStr GANGNAM)) default_user).
  vm_compute. reflexivity.
Defined.

(** ** Loading twice *)

Lemma setitem_same (df : DataFrame) (c : str) (vs : Series) :
  getitem df c = Ok vs -> setitem df c vs = df.
Proof.
  induction df as [|[n ws] df IH]; simpl; [discriminate |].
  destruct (str_eqb n c) eqn:E.
  - intros H. inversion H; subst. reflexivity.
  - intros H. rewrite (IH H). reflexivity.
Qed.

Lemma coerce_columns_fixed (parse_num : str -> option Q) (cols : list str)
  (df : DataFrame) :
  (forall c, In c cols ->
     exists vs, getitem df c = Ok vs /\ coerce parse_num vs = vs) ->
  coerce_columns parse_num cols df = Ok df.
Proof.
  induction cols as [|col rest IH]; intros H; simpl; [reflexivity |].
  destruct (H col (or_introl eq_refl)) as (vs & G & E).
  rewrite G. simpl. rewrite E, (setitem_same _ _ G).
  apply IH. intros c Hc. apply H. right. exact Hc.
Qed.

Lemma preprocess_idempotent (repr_num : Q -> str)
  (parse_num : str -> option Q) (csv df : DataFrame) :
  preprocess repr_num parse_num csv = Ok df ->
  preprocess repr_num parse_num df = Ok df.
Proof.
  intros L.
  pose proof (preprocess_spec repr_num parse_num csv) as P. rewrite L in P.
  destruct P as (names & Hn & Hc & Hg).
  destruct (@loaded_labels _ _ _ _ L) as (names' & Hn' & Hl).
  rewrite Hn in Hn'. inversion Hn'; subst names'.
  assert (Ga : getitem df COL_AREA = Ok names).
  { rewrite Hg. unfold with_districts. rewrite getitem_setitem.
    change (str_eqb COL_DISTRICT COL_AREA) with false.
    rewrite Hn. reflexivity. }
  unfold preprocess. rewrite Ga. cbn [rbind].
  rewrite (setitem_same _ _ Hl).
  apply coerce_columns_fixed. intros c Hin.
  apply filter_In in Hin. destruct Hin as [Hin Hnum].
  apply getitem_In in Hin. destruct Hin as [vs G]. exists vs.
  split; [exact G |].
  rewrite Hg, Hnum in G.
  destruct (getitem (with_districts repr_num csv names) c); inversion G.
  apply coerce_idempotent.
Qed.

(** X11. Loading is idempotent: preprocessing a frame that is already
    loaded gives the same frame, columns, order and cells. *)
Theorem X11_preprocess_idempotent :
  forall (repr_num : Q -> str) (parse_num : str -> option Q)
         (csv df : DataFrame),
    preprocess repr_num parse_num csv = Ok df ->
    preprocess repr_num parse_num df = Ok df.
Proof. exact preprocess_idempotent. Qed.

Lemma X11_preprocess_idempotent_witness :
  preprocess repr_whole parse_whole demo_df = Ok demo_df.
Proof.
  apply (@X11_preprocess_idempotent repr_whole parse_whole demo_csv demo_df).
  vm_compute. reflexivity.
Defined.

(** ** The label of an age column (lines 97 and 117) *)

Lemma split_on_no_sep (sep : N) (s : str) :
  ~ In sep s -> split_on sep s = [s].
Proof.
  induction s as [|c s IH]; simpl; [reflexivity |].
  intros H. destruct (c =? sep)%N eqn:E.
  - apply N.eqb_eq in E. subst. tauto.
  - rewrite IH by tauto. reflexivity.
Qed.

Lemma split_on_app (sep : N) (a s : str) :
  ~ In sep a -> split_on sep (a ++ sep :: s) = a :: split_on sep s.
Proof.
  induction a as [|c a IH]; simpl.
  - rewrite N.eqb_refl. reflexivity.
  - intros H. destruct (c =? sep)%N eqn:E.
    + apply N.eqb_eq in E. subst. tauto.
    + rewrite IH by tauto. reflexivity.
Qed.

(** X12. The label of a column is what stands between its first and its
    second underscore (or after the first, when there is one only), followed
    by "대"; whatever comes after the second underscore is not used.  A name
    without underscore raises [IndexError]. *)
Theorem X12_age_label_form :
  forall (head part : str),
    ~ In UNDERSCORE head ->
    ~ In UNDERSCORE part ->
    age_label (head ++ UNDERSCORE :: part) = Ok (part ++ lit "대")
    /\ (forall rest,
           age_label (head ++ UNDERSCORE :: part ++ UNDERSCORE :: rest)
           = Ok (part ++ lit "대"))
    /\ age_label head = Raise IndexError.
Proof.
  intros head part Hh Hp. unfold age_label. split; [| split].
  - rewrite split_on_app, split_on_no_sep by assumption. reflexivity.
  - intros rest. rewrite !split_on_app by assumption. reflexivity.
  - rewrite split_on_no_sep by assumption. reflexivity.
Qed.

Lemma X12_age_label_form_witness :
  age_label (lit "연령대_60") = Ok (lit "60대")
  /\ (forall rest,
         age_label (lit "연령대" ++ UNDERSCORE :: lit "60" ++ UNDERSCORE :: rest)
         = Ok (lit "60" ++ lit "대"))
  /\ age_label (lit "연령대") = Raise IndexError.
Proof.
  apply (X12_age_label_form (lit "연령대") (lit "60"));
    vm_compute; intuition discriminate.
Defined.

Example age_label_sixty_and_over :
  age_label (lit "연령대_60_이상_매출_금액") = Ok (lit "60대").
Proof. vm_compute. reflexivity. Qed.

(** ** Longer names (lines 52-55) *)

Lemma substring_extend (p s before after : str) :
  substring p s -> substring p (before ++ s ++ after).
Proof.
  intros (b & a & ->). exists (before ++ b), (a ++ after).
  rewrite <- !app_assoc. reflexivity.
Qed.

Lemma scan_keywords_hit (items : list (str * str)) (s : str) :
  existsb (fun kd => contains (fst kd) s) items = true <->
  exists kw, In (kw, scan_keywords items s) items /\ contains kw s = true.
Proof.
  induction items as [|[kw dist] rest IH]; simpl.
  - split; [discriminate | intros (kw & [] & _)].
  - destruct (contains kw s) eqn:E; simpl.
    + split; [intros _; exists kw; auto | reflexivity].
    + rewrite IH. split.
      * intros (k & H1 & H2). exists k. auto.
      * intros (k & [H1 | H1] & H2); [inversion H1; subst; congruence |].
        exists k. auto.
Qed.

(** X13. A name in which a keyword occurs keeps a borough of the table
    when text is put before and after it: the longer name contains a
    keyword too, and is not labelled "기타/미분류" by the last line of the
    classifier.  The borough itself may change: "창동" alone is "도봉구",
    after "인사동 " it is "종로구". *)
Theorem X13_longer_name_stays_classified :
  (forall (repr_num : Q -> str) (s before after : str),
      existsb (fun kd => contains (fst kd) s) KEYWORD_TO_DISTRICT = true ->
      existsb (fun kd => contains (fst kd) (before ++ s ++ after))
        KEYWORD_TO_DISTRICT = true
      /\ exists kw,
           In (kw, match_district repr_num (CStr (before ++ s ++ after)))
             KEYWORD_TO_DISTRICT
           /\ substring kw (before ++ s ++ after))
  /\ (forall repr_num : Q -> str,
         match_district repr_num (CStr (lit "창동")) = lit "도봉구" /\
         match_district repr_num (CStr (lit "인사동 " ++ lit "창동" ++ []))
         = lit "종로구").
Proof.
  split.
  - intros repr_num s before after H.
    assert (H' : existsb (fun kd => contains (fst kd) (before ++ s ++ after))
                   KEYWORD_TO_DISTRICT = true).
    { apply existsb_exists in H. destruct H as (kd & Hin & Hc).
      apply existsb_exists. exists kd. split; [exact Hin |].
      apply contains_spec. apply substring_extend. apply contains_spec.
      exact Hc. }
    split; [exact H' |].
    apply scan_keywords_hit in H'. destruct H' as (kw & H1 & H2).
    exists kw. split; [exact H1 | apply contains_spec; exact H2].
  - intros repr_num. split; vm_compute; reflexivity.
Qed.

Lemma X13_longer_name_stays_classified_witness :
  existsb (fun kd => contains (fst kd) (lit "서울 " ++ lit "창동" ++ lit " 시장"))
    KEYWORD_TO_DISTRICT = true
  /\ exists kw,
       In (kw, match_district repr_whole
                 (CStr (lit "서울 " ++ lit "창동" ++ lit " 시장")))
         KEYWORD_TO_DISTRICT
       /\ substring kw (lit "서울 " ++ lit "창동" ++ lit " 시장").
Proof.
  apply (proj1 X13_longer_name_stays_classified repr_whole (lit "창동")
           (lit "서울 ") (lit " 시장")).
  vm_compute. reflexivity.
Defined.

(** ** The table and the classifier together *)

(** X14. No entry of the table is hidden by an earlier one: an area name
    that is exactly a keyword of the table is classified as the borough the
    table gives for that keyword.  The table names 25 boroughs. *)
Theorem X14_no_keyword_hidden :
  (forall (repr_num : Q -> str) (kw dist : str),
      In (kw, dist) KEYWORD_TO_DISTRICT ->
      match_district repr_num (CStr kw) = dist)
  /\ length (unique (map (fun kd => CStr (snd kd)) KEYWORD_TO_DISTRICT))
     = 25%nat.
Proof.
  split; [| vm_compute; reflexivity].
  intros repr_num kw dist Hin. unfold match_district. cbn [py_str].
  assert (H : forallb (fun kd =>
                str_eqb (scan_keywords KEYWORD_TO_DISTRICT (fst kd)) (snd kd))
                KEYWORD_TO_DISTRICT = true) by (vm_compute; reflexivity).
  rewrite forallb_forall in H. specialize (H _ Hin).
  apply str_eqb_eq in H. exact H.
Qed.

Lemma X14_no_keyword_hidden_witness :
  match_district repr_whole (CStr (lit "가로수길")) = lit "강남구".
Proof.
  apply (proj1 X14_no_keyword_hidden repr_whole).
  rewrite KEYWORD_TO_DISTRICT_as_written. apply in_map_iff.
  exists ("가로수길"%string, "강남구"%string). split; [reflexivity |].
  vm_compute. tauto.
Defined.

(** ** The shape of a run *)

Lemma summary_events (df sub_df : DataFrame) (selected : option cell)
  (u : user) :
  forallb summary_event (fst (summary df sub_df selected u)) = true.
Proof.
  unfold summary, bind, lift, emit.
  repeat (match goal with
          | |- context [match ?r with Ok _ => _ | Raise _ => _ end] =>
            destruct r
          end; cbn [fst snd app forallb summary_event andb]);
    reflexivity.
Qed.

Lemma filtered_view_cases (df : DataFrame) (u : user) :
  (exists e, filtered_view df u = ([SidebarHeader], Raise e))
  \/ (exists ds i e,
         filtered_view df u = ([SidebarHeader; SelectDistrict ds i], Raise e))
  \/ (exists ds i selected view,
         filtered_view df u
         = ([SidebarHeader; SelectDistrict ds i; SelectQuarter],
            Ok (selected, view))).
Proof.
  unfold filtered_view, bind, lift, emit, ret.
  destruct (getitem df COL_DISTRICT) as [labels | e]; [| left; eauto].
  destruct (getitem df COL_QUARTER) as [quarters | e]; right;
    [right | left]; simpl; eauto 10.
Qed.

(** X15. Every run shows the title first.  The footer is shown exactly in
    the runs that raise nothing, the file-not-found error exactly when no
    file is there, and a run that shows the no-data warning shows no part of
    a summary. *)
Theorem X15_run_shape :
  forall (repr_num : Q -> str) (parse_num : str -> option Q)
         (file : option DataFrame) (u : user),
    (exists t, fst (dashboard repr_num parse_num file u) = Title :: t)
    /\ (In SidebarFooter (fst (dashboard repr_num parse_num file u)) <->
        snd (dashboard repr_num parse_num file u) = Ok tt)
    /\ (In FileNotFound (fst (dashboard repr_num parse_num file u)) <->
        file = None)
    /\ (In NoDataWarning (fst (dashboard repr_num parse_num file u)) ->
        forallb (fun e => negb (summary_event e))
          (fst (dashboard repr_num parse_num file u)) = true).
Proof.
  intros repr_num parse_num file u.
  destruct file as [csv |].
  2:{ cbn. split; [eauto |]. split; [intuition |]. split; [intuition |].
      reflexivity. }
  rewrite dashboard_spec.
  destruct (preprocess repr_num parse_num csv) as [df | e].
  2:{ cbn. split; [eauto |]. split; [intuition discriminate |].
      split; [intuition discriminate |]. intuition discriminate. }
  destruct (df_empty df).
  { cbn. split; [eauto |]. split; [intuition |].
    split; [intuition discriminate |]. reflexivity. }
  destruct (filtered_view_cases df u)
    as [[e ->] | [(ds & i & e & ->) | (ds & i & selected & view & ->)]].
  { cbn. split; [eauto |]. split; [intuition discriminate |].
    split; [intuition discriminate |]. intuition discriminate. }
  { cbn. split; [eauto |]. split; [intuition discriminate |].
    split; [intuition discriminate |]. intuition discriminate. }
  destruct (df_empty view).
  { cbn. split; [eauto |]. split; [intuition |].
    split; [intuition discriminate |]. reflexivity. }
  pose proof (summary_events df view selected u) as S.
  destruct (summary df view selected u) as [t' r]. cbn [fst] in S.
  assert (Hs : forall e, In e t' -> summary_event e = true).
  { rewrite forallb_forall in S. exact S. }
  destruct r as [[] | e]; simpl.
  - split; [eauto |]. split; [| split].
    + split; [reflexivity |]. intros _. right. right. right. right.
      apply in_or_app. right. left. reflexivity.
    + split; [| discriminate].
      intros [H | [H | [H | [H | H]]]]; try discriminate.
      apply in_app_or in H. destruct H as [H | [H | []]]; [| discriminate].
      apply Hs in H. discriminate.
    + intros [H | [H | [H | [H | H]]]]; try discriminate.
      apply in_app_or in H. destruct H as [H | [H | []]]; [| discriminate].
      apply Hs in H. discriminate.
  - split; [eauto |]. split; [| split].
    + split; [| discriminate].
      intros [H | [H | [H | [H | H]]]]; try discriminate.
      apply Hs in H. discriminate.
    + split; [| discriminate].
      intros [H | [H | [H | [H | H]]]]; try discriminate.
      apply Hs in H. discriminate.
    + intros [H | [H | [H | [H | H]]]]; try discriminate.
      apply Hs in H. discriminate.
Qed.

(** ** Summaries of files that lack a column *)



